(** * Daily multilingual financial digest: the pipeline of
      [crew_ai_financial_daily_summary.py], embedded and verified.

    The Python module is a straight-line pipeline around four external
    services (search, text generation, image download, message delivery).
    The embedding keeps the module's own functions under their own names.
    Everything the module computes itself is a Rocq function; everything
    it asks of the outside world is answered by an environment [Env], and
    every such exchange is appended, with its outcome, to a chronological
    trace of events.  Python exceptions are the [Raise] outcome of the
    monad [M]; [try ... except Exception] is [try_except].

    What is left out: the [logger] calls (they only write log lines) and
    the [temperature] argument of [litellm_generate] (always the literal
    [0.0], only forwarded in the request payload). *)

From Stdlib Require Import ZArith Ascii String List Lia.
From stdpp Require Import base decidable option list numbers countable gmap pretty.

Local Open Scope Z_scope.

(* ===================================================================== *)
(** ** Python strings *)
(* ===================================================================== *)

(** A [str] is a sequence of code points.  Slicing [s[:n]] is [take n],
    concatenation is [++], truthiness is non-emptiness. *)
Definition pystr : Type := list N.

(** A string literal of the source (all of them are ASCII). *)
Definition lit (s : string) : pystr :=
  map N_of_ascii (list_ascii_of_string s).

(** [str(n)] / the [{n}] field of an f-string, for a non-negative int. *)
Definition str_of_nat (n : nat) : pystr := lit (pretty n).

(** Truthiness of a [str]. *)
Definition truthy (s : pystr) : bool :=
  match s with [] => false | _ :: _ => true end.

(** Truthiness of a value that is a [str] or [None]. *)
Definition truthy_opt (o : option pystr) : bool :=
  match o with Some s => truthy s | None => false end.

(** [a or b] on values that are a [str] or [None]. *)
Definition py_or (a b : option pystr) : option pystr :=
  if truthy_opt a then a else b.

(** [str(v)] for a value that is a [str] or [None], as an f-string field
    renders it. *)
Definition str_of_opt (o : option pystr) : pystr :=
  match o with Some s => s | None => lit "None" end.

Definition newline : N := 10%N.

(** [sep.join(parts)]. *)
Fixpoint join (sep : pystr) (parts : list pystr) : pystr :=
  match parts with
  | [] => []
  | [p] => p
  | p :: rest => p ++ sep ++ join sep rest
  end.

(** [text.split("\n")]: the pieces between newlines; never empty. *)
Fixpoint split_lines (text : pystr) : list pystr :=
  match text with
  | [] => [[]]
  | c :: rest =>
      if N.eqb c newline then [] :: split_lines rest
      else match split_lines rest with
           | [] => [[c]]
           | l :: ls => (c :: l) :: ls
           end
  end.

(** [str.lower] and [str.capitalize].  Only the ASCII letters are cased
    here.  For the test [lang.lower() in ("english", "en")] this loses
    nothing: the only non-ASCII code points whose lower case is an ASCII
    letter are the Kelvin and Angstrom signs, and neither [k] nor a ring
    a occurs in the two names.  For the block titles the model is exact on
    ASCII language names, which are the ones the pipeline uses. *)
Definition lower_char (c : N) : N :=
  if (N.leb 65 c && N.leb c 90)%bool then (c + 32)%N else c.

Definition upper_char (c : N) : N :=
  if (N.leb 97 c && N.leb c 122)%bool then (c - 32)%N else c.

Definition lower (s : pystr) : pystr := map lower_char s.

Definition capitalize (s : pystr) : pystr :=
  match s with
  | [] => []
  | c :: rest => upper_char c :: lower rest
  end.

(* ===================================================================== *)
(** ** News items *)
(* ===================================================================== *)

(** The dicts the search functions build: four keys, each holding a [str]
    or [None] ([r.get(k)] of a missing key is [None] as well). *)
Record NewsItem : Type := mkItem {
  title : option pystr;
  link : option pystr;
  snippet : option pystr;
  image : option pystr
}.

Global Instance NewsItem_eq_dec : EqDecision NewsItem.
Proof. solve_decision. Defined.

(* ===================================================================== *)
(** ** [select_images_from_results] *)
(* ===================================================================== *)

Definition placeholder_prefix : pystr :=
  lit "https://via.placeholder.com/800x400.png?text=Financial+Chart+".

(** The f-string of line 165 for a list that currently holds [n] images. *)
Definition placeholder (n : nat) : pystr :=
  placeholder_prefix ++ str_of_nat (n + 1).

(** The [for] loop of lines 158-163: append the item's image when it is
    truthy, then leave the loop as soon as the quota is reached.  The
    quota test comes after the append. *)
Fixpoint collect_images (results : list NewsItem) (images : list pystr)
    (max_images : Z) : list pystr :=
  match results with
  | [] => images
  | r :: rest =>
      let images' :=
        match image r with
        | Some img => if truthy img then images ++ [img] else images
        | None => images
        end in
      if Z.of_nat (length images') >=? max_images then images'
      else collect_images rest images' max_images
  end.

(** The [while] loop of lines 164-165, unrolled [fuel] times. *)
Fixpoint pad_images (fuel : nat) (images : list pystr) (max_images : Z)
    : list pystr :=
  match fuel with
  | O => images
  | S fuel' =>
      if Z.of_nat (length images) <? max_images
      then pad_images fuel' (images ++ [placeholder (length images)]) max_images
      else images
  end.

(** Each iteration makes the list one longer, so [max_images - len(images)]
    iterations are enough for the guard to fail (see [pad_images_exit]). *)
Definition select_images_from_results (results : list NewsItem)
    (max_images : Z) : list pystr :=
  let images := collect_images results [] max_images in
  pad_images (Z.to_nat (max_images - Z.of_nat (length images))) images max_images.

(* ===================================================================== *)
(** ** Deduplication (lines 117-125 of [search_agent_us_financial_news]) *)
(* ===================================================================== *)

(** [r.get("link") or r.get("title")]: the link when it is a non-empty
    string, else whatever the title is (possibly [None]). *)
Definition dedupe_key (r : NewsItem) : option pystr :=
  py_or (link r) (title r).

(** The loop over [results] with its [seen] set and [deduped] list. *)
Fixpoint dedupe_loop (results : list NewsItem) (seen : gset (option pystr))
    (deduped : list NewsItem) : list NewsItem :=
  match results with
  | [] => deduped
  | r :: rest =>
      let k := dedupe_key r in
      if bool_decide (k ∈ seen) then dedupe_loop rest seen deduped
      else dedupe_loop rest ({[k]} ∪ seen) (deduped ++ [r])
  end.

Definition dedupe (results : list NewsItem) : list NewsItem :=
  dedupe_loop results ∅ [].

(* ===================================================================== *)
(** ** Exceptions, the outside world and the trace *)
(* ===================================================================== *)

(** Exceptions, by where they come from; [str(e)] is the carried text. *)
Inductive exception : Type :=
| AttributeError (msg : pystr)   (* raised by the module's own code *)
| ExternalError (msg : pystr).   (* raised inside a library or network call *)

Definition str_of_exception (e : exception) : pystr :=
  match e with AttributeError m => m | ExternalError m => m end.

Inductive outcome (A : Type) : Type :=
| Val (a : A)
| Raise (e : exception).
Arguments Val {A} a.
Arguments Raise {A} e.

(** What [r.json()] of the generation endpoint is: an object, of which the
    code reads the keys [text] and [generated_text] and which [json.dumps]
    prints between braces, or some other JSON value, on which [.get]
    raises. *)
Inductive llm_json : Type :=
| JsonObject (text generated_text : option pystr) (dumps_body : pystr)
| JsonOther (type_name : pystr).

(** A downloaded, decoded and thumbnailed image. *)
Inductive image_data : Type := Thumbnail (pixels : list N).

(** The calls made on the reportlab canvas, in order. *)
Inductive canvas_op : Type :=
| setFont (name : pystr) (size : Z)
| drawString (x y : Z) (s : pystr)
| showPage
| drawInlineImage (img : image_data) (x y width height : Z).

(** One entry per exchange with the outside world, with its outcome.
    [EvGenerate] is a ghost entry: it marks an invocation of the
    generation capability [litellm_generate], whether or not that
    invocation goes to the network.  [EvNow] is the date string
    formatted at line 290; the reading of the clock at line 102, whose
    value is never used, leaves no entry. *)
Inductive event : Type :=
| EvSerperPost (query : pystr) (num : nat) (out : outcome (list NewsItem))
| EvGenerate (prompt : pystr) (max_tokens : Z)
| EvLLMPost (prompt : pystr) (max_tokens : Z) (out : outcome llm_json)
| EvImageGet (url : pystr) (out : outcome image_data)
| EvSleep
| EvNow (date : pystr)
| EvSave (out_path : pystr) (doc : list canvas_op) (out : outcome unit)
| EvOpen (path : pystr) (out : outcome unit)
| EvTelegramPost (path caption : pystr) (out : outcome Z).

(** The process environment and the behaviour of the outside world.  Each
    answer may depend on everything that happened before (the trace).
    - [serper_post]: lines 73-75 and the reading of the [organic] array,
      as a list of items, or the exception raised on the way;
    - [llm_post]: lines 47-49;
    - [image_get]: [requests.get], [raise_for_status], [Image.open],
      [thumbnail] and [ImageReader] of one image;
    - [now_date]: [datetime.now().strftime("%Y%m%d")];
    - [canvas_save]: [c.save()], which writes the file;
    - [open_rb]: [open(pdf_path, "rb")];
    - [telegram_post]: [requests.post] of line 261, giving the status
      code. *)
Record Env : Type := mkEnv {
  SERPER_API_KEY : pystr;
  TAVILY_API_KEY : pystr;
  LITELLM_API_KEY : pystr;
  TELEGRAM_BOT_TOKEN : pystr;
  TELEGRAM_CHANNEL_ID : pystr;
  serper_post : list event -> pystr -> nat -> outcome (list NewsItem);
  llm_post : list event -> pystr -> Z -> outcome llm_json;
  image_get : list event -> pystr -> outcome image_data;
  now_date : list event -> pystr;
  canvas_save : list event -> pystr -> list canvas_op -> outcome unit;
  open_rb : list event -> pystr -> outcome unit;
  telegram_post : list event -> pystr -> pystr -> outcome Z
}.

(** *** The monad: a trace threaded through, and exceptions *)

Definition M (A : Type) : Type := list event -> outcome A * list event.

Definition ret {A} (a : A) : M A := fun h => (Val a, h).

Definition raise {A} (e : exception) : M A := fun h => (Raise e, h).

Definition bind {A B} (m : M A) (f : A -> M B) : M B :=
  fun h => match m h with
           | (Val a, h') => f a h'
           | (Raise e, h') => (Raise e, h')
           end.

(** [try: m  except Exception as e: handler e]. *)
Definition try_except {A} (m : M A) (handler : exception -> M A) : M A :=
  fun h => match m h with
           | (Val a, h') => (Val a, h')
           | (Raise e, h') => handler e h'
           end.

Definition emit (ev : event) : M unit := fun h => (Val tt, h ++ [ev]).

(** An exchange with the outside world: ask, record, pass the outcome on. *)
Definition call {A} (ask : list event -> outcome A)
    (record : outcome A -> event) : M A :=
  fun h => let out := ask h in (out, h ++ [record out]).

(** A computation of the module's own that may raise. *)
Definition lift {A} (o : outcome A) : M A := fun h => (o, h).

Notation "'let*' x ':=' m 'in' k" := (bind m (fun x => k))
  (at level 10, x name, m at level 100, k at level 200).

(* ===================================================================== *)
(** ** The generation capability: [litellm_generate] *)
(* ===================================================================== *)

(** [a or b] when [b] is a [str]: the value is a [str]. *)
Definition or_str (a : option pystr) (b : pystr) : pystr :=
  match a with
  | Some s => if truthy s then s else b
  | None => b
  end.

(** [json.dumps] of a JSON object. *)
Definition json_dumps (body : pystr) : pystr := lit "{" ++ body ++ lit "}".

Definition no_get_attribute (type_name : pystr) : exception :=
  AttributeError (lit "'" ++ type_name ++ lit "' object has no attribute 'get'").

Definition litellm_generate (env : Env) (prompt : pystr) (max_tokens : Z)
    : M pystr :=
  let* _ := emit (EvGenerate prompt max_tokens) in
  if negb (truthy (LITELLM_API_KEY env)) then
    ret (lit "[MOCK LLM RESPONSE] " ++ (take 400 prompt ++ lit "..."))
  else
    try_except
      (let* data := call (fun h => llm_post env h prompt max_tokens)
                         (EvLLMPost prompt max_tokens) in
       match data with
       | JsonObject text generated_text body =>
           ret (or_str text (or_str generated_text (json_dumps body)))
       | JsonOther type_name => raise (no_get_attribute type_name)
       end)
      (fun e => ret (lit "[LLM_ERROR] " ++ str_of_exception e)).

(* ===================================================================== *)
(** ** Search: [search_serper], [search_tavily], the search agent *)
(* ===================================================================== *)

Definition mock_result : NewsItem :=
  mkItem (Some (lit "Mock: US markets rally on strong jobs data"))
         (Some (lit "your desired link"))
         (Some (lit "S&P 500 closed higher after..."))
         (Some (lit "your desired image")).

(** The dict built at lines 78-83: [image] becomes [None] when falsy. *)
Definition serper_item (item : NewsItem) : NewsItem :=
  mkItem (title item) (link item) (snippet item) (py_or (image item) None).

Definition search_serper (env : Env) (query : pystr) (num_results : nat)
    : M (list NewsItem) :=
  if negb (truthy (SERPER_API_KEY env)) then ret [mock_result]
  else
    let* organic := call (fun h => serper_post env h query num_results)
                         (EvSerperPost query num_results) in
    ret (map serper_item (take num_results organic)).

Definition search_tavily (env : Env) (query : pystr) (num_results : nat)
    : M (list NewsItem) :=
  if negb (truthy (TAVILY_API_KEY env)) then search_serper env query num_results
  else search_serper env query num_results.

Definition search_query : pystr :=
  lit "US markets news last hour OR " ++
  lit "Wall Street today OR S&P 500 NASDAQ Dow Jones earnings".

(** The value of [datetime.now] at line 102 is never used and is not
    recorded. *)
Definition search_agent_us_financial_news (env : Env) : M (list NewsItem) :=
  let results := [] in
  let* results :=
    try_except (let* found := search_tavily env search_query 5 in
                ret (results ++ found))
               (fun _ => ret results) in
  let* results :=
    try_except (let* found := search_serper env search_query 5 in
                ret (results ++ found))
               (fun _ => ret results) in
  ret (dedupe results).

(* ===================================================================== *)
(** ** [summary_agent_generate] and [translating_agent_translate] *)
(* ===================================================================== *)

Definition nl : pystr := [newline].

Definition no_results_digest : pystr := lit "No results found in the last hour.".

(** The f-string of line 142. *)
Definition context_line (i : nat) (r : NewsItem) : pystr :=
  str_of_nat i ++ lit ". " ++ str_of_opt (title r) ++ lit " - " ++
  or_str (snippet r) [] ++ lit " (" ++ str_of_opt (link r) ++ lit ")".

(** Lines 140-142: [enumerate(results[:6], start=1)]. *)
Definition context_lines (results : list NewsItem) : list pystr :=
  imap (fun i r => context_line (i + 1) r) (take 6 results).

Definition summary_prompt (results : list NewsItem) : pystr :=
  lit "You are a succinct financial news summarizer. Given the following search results from US financial news, " ++
  lit "write a short, clear summary (under 500 words) focused on the most important market moves, drivers, " ++
  lit "and trading activity. Use 3 short bullets and a 2-4 sentence paragraph. Do not invent facts; if uncertain, say 'reported'." ++ nl ++ nl ++
  lit "CONTEXT:" ++ nl ++ join nl (context_lines results) ++ nl ++ nl ++
  lit "OUTPUT:" ++ nl.

Definition summary_agent_generate (env : Env) (results : list NewsItem)
    : M pystr :=
  match results with
  | [] => ret no_results_digest
  | _ :: _ => litellm_generate env (summary_prompt results) 600
  end.

Definition LANGUAGE_CODES : gmap pystr pystr :=
  <[lit "arabic" := lit "ar"]>
    (<[lit "hindi" := lit "hi"]> (<[lit "hebrew" := lit "he"]> ∅)).

Definition translation_prompt (text target_lang : pystr) : pystr :=
  let lang_code := default target_lang (LANGUAGE_CODES !! lower target_lang) in
  lit "Translate the following summary into " ++ target_lang ++
  lit " (language code: " ++ lang_code ++ lit "). " ++ nl ++
  lit "Preserve the original formatting (bullets, short paragraphs). Do not add or remove content." ++ nl ++ nl ++
  lit "ORIGINAL:" ++ nl ++ text ++ nl ++ nl ++ lit "TRANSLATED:" ++ nl.

Definition translating_agent_translate (env : Env) (text target_lang : pystr)
    : M pystr :=
  litellm_generate env (translation_prompt text target_lang) 800.

(* ===================================================================== *)
(** ** The document renderer: [create_pdf] *)
(* ===================================================================== *)

(** A dict with string keys and values, in insertion order (the renderer
    iterates over [items()]). *)
Definition dict : Type := list (pystr * pystr).

(** [d.get(k)]. *)
Fixpoint dict_get (k : pystr) (d : dict) : option pystr :=
  match d with
  | [] => None
  | (k', v) :: rest => if decide (k = k') then Some v else dict_get k rest
  end.

(** [d[k] = v]: replace in place, or append a new key. *)
Fixpoint dict_set (k v : pystr) (d : dict) : dict :=
  match d with
  | [] => [(k, v)]
  | (k', v') :: rest =>
      if decide (k = k') then (k', v) :: rest else (k', v') :: dict_set k v rest
  end.

(** [letter] is 612 by 792 points; reportlab holds these as floats, and
    every coordinate computed here is a whole number far below 2^53, so
    integer arithmetic is exact. *)
Definition page_w : Z := 612.
Definition page_h : Z := 792.
Definition margin : Z := 40.

(** The local state of [create_pdf]: the cursor [y] and the canvas [c]. *)
Record render_state : Type := mkState {
  y : Z;
  canvas : list canvas_op
}.

Definition draw (op : canvas_op) (st : render_state) : render_state :=
  mkState (y st) (canvas st ++ [op]).

Definition move_down (d : Z) (st : render_state) : render_state :=
  mkState (y st - d) (canvas st).

Definition new_page (st : render_state) : render_state :=
  mkState (page_h - margin) (canvas st ++ [showPage]).

Definition Helvetica_Bold : pystr := lit "Helvetica-Bold".
Definition Helvetica : pystr := lit "Helvetica".

(** One iteration of the loop of lines 204-209. *)
Definition draw_line (st : render_state) (line : pystr) : render_state :=
  let st := if y st <? margin + 50 then new_page st else st in
  move_down 14 (draw (drawString margin (y st) (take 120 line)) st).

Definition none_has_no_split : exception :=
  AttributeError (lit "'NoneType' object has no attribute 'split'").

(** The nested function [draw_text_block]; [text] is a [str] or [None]. *)
Definition draw_text_block (title : pystr) (text : option pystr)
    (st : render_state) : outcome render_state :=
  let st := draw (setFont Helvetica_Bold 14) st in
  let st := draw (drawString margin (y st) title) st in
  let st := move_down 18 st in
  let st := draw (setFont Helvetica 11) st in
  match text with
  | None => Raise none_has_no_split
  | Some text =>
      let st := fold_left draw_line (split_lines text) st in
      Val (move_down 10 st)
  end.

(** Lines 217-226.  [images[0]] of an empty list raises [IndexError]
    inside the [try], which skips the image without any download. *)
Definition place_first_image (env : Env) (images : list pystr)
    (st : render_state) : M render_state :=
  match images !! 0%nat with
  | None => ret st
  | Some img_url =>
      try_except
        (let* img := call (fun h => image_get env h img_url) (EvImageGet img_url) in
         let st := draw (drawInlineImage img margin (y st - 310) 500 300) st in
         ret (move_down 320 st))
        (fun _ => ret st)
  end.

(** Lines 235-247, reached only when [len(images) > 1]. *)
Definition place_second_image (env : Env) (images : list pystr)
    (st : render_state) : M render_state :=
  match images !! 1%nat with
  | None => ret st
  | Some img_url =>
      try_except
        (let* img := call (fun h => image_get env h img_url) (EvImageGet img_url) in
         let st := if y st <? margin + 320 then new_page st else st in
         let st := draw (drawInlineImage img margin (y st - 310) 500 300) st in
         ret (move_down 320 st))
        (fun _ => ret st)
  end.

(** [lang.lower() in ("english", "en")]. *)
Definition is_english (lang : pystr) : bool :=
  bool_decide (lower lang = lit "english") || bool_decide (lower lang = lit "en").

Definition block_title (lang : pystr) : pystr := capitalize lang ++ lit " Summary".

(** The loop of lines 229-247 from index [i] on. *)
Fixpoint render_languages (env : Env) (images : list pystr) (i : nat)
    (items : list (pystr * pystr)) (st : render_state) : M render_state :=
  match items with
  | [] => ret st
  | (lang, text) :: rest =>
      if is_english lang then render_languages env images (S i) rest st
      else
        let* st := lift (draw_text_block (block_title lang) (Some text) st) in
        let* st :=
          if (i =? 1)%nat && (1 <? length images)%nat
          then place_second_image env images st
          else ret st in
        render_languages env images (S i) rest st
  end.

(** Everything [create_pdf] draws before [c.save()]. *)
Definition render (env : Env) (summary_texts_by_lang : dict)
    (images : list pystr) : M render_state :=
  let st := mkState (page_h - margin) [] in
  let eng := py_or (dict_get (lit "english") summary_texts_by_lang)
                   (dict_get (lit "en") summary_texts_by_lang) in
  let* st := lift (draw_text_block (lit "English Summary") eng st) in
  let* st := place_first_image env images st in
  render_languages env images 0 summary_texts_by_lang st.

Definition create_pdf (env : Env) (summary_texts_by_lang : dict)
    (images : list pystr) (out_path : pystr) : M unit :=
  let* st := render env summary_texts_by_lang images in
  call (fun h => canvas_save env h out_path (canvas st))
       (EvSave out_path (canvas st)).

(* ===================================================================== *)
(** ** The publisher: [send_to_telegram] *)
(* ===================================================================== *)

Definition send_to_telegram (env : Env) (pdf_path caption : pystr) : M bool :=
  if negb (truthy (TELEGRAM_BOT_TOKEN env)) || negb (truthy (TELEGRAM_CHANNEL_ID env))
  then ret false
  else
    let* _ := call (fun h => open_rb env h pdf_path) (EvOpen pdf_path) in
    let* status_code :=
      call (fun h => telegram_post env h pdf_path caption)
           (EvTelegramPost pdf_path caption) in
    if status_code =? 200 then ret true else ret false.

(* ===================================================================== *)
(** ** The orchestrator: [crewai_flow_run] *)
(* ===================================================================== *)

(** The loop of lines 285-287. *)
Fixpoint translate_all (env : Env) (summary_en : pystr) (langs : list pystr)
    (translations : dict) : M dict :=
  match langs with
  | [] => ret translations
  | lang :: rest =>
      let* translated := translating_agent_translate env summary_en lang in
      let translations := dict_set lang translated translations in
      let* _ := emit EvSleep in
      translate_all env summary_en rest translations
  end.

Definition target_languages : list pystr :=
  [lit "arabic"; lit "hindi"; lit "hebrew"].

(** [datetime.now().strftime("%Y%m%d")]. *)
Definition today_string (env : Env) : M pystr :=
  fun h => let date := now_date env h in (Val date, h ++ [EvNow date]).

(** Lines 279-297: what the run does once it has results. *)
Definition flow_stages (env : Env) (results : list NewsItem) : M bool :=
  let* summary_en := summary_agent_generate env results in
  let images := select_images_from_results results 2 in
  let translations := dict_set (lit "english") summary_en [] in
  let* translations := translate_all env summary_en target_languages translations in
  let* today := today_string env in
  let out_pdf := lit "daily_summary_" ++ today ++ lit ".pdf" in
  let* _ := create_pdf env translations images out_pdf in
  let* sent := send_to_telegram env out_pdf (lit "Daily Market Summary - " ++ today) in
  ret true.

(** The body of the [try] of [crewai_flow_run]. *)
Definition flow_body (env : Env) : M bool :=
  let* results := search_agent_us_financial_news env in
  match results with
  | [] => ret false
  | _ :: _ => flow_stages env results
  end.

Definition crewai_flow_run (env : Env) : M bool :=
  try_except (flow_body env) (fun _ => ret false).

(* ===================================================================== *)
(** * Vocabulary of the properties, and sample worlds *)
(* ===================================================================== *)

(** *** Words used in the statements *)

(** The truthy image of an item, if it has one. *)
Definition real_image (r : NewsItem) : option pystr :=
  match image r with
  | Some img => if truthy img then Some img else None
  | None => None
  end.

(** A news item that carries an image. *)
Definition item_with_image (url : string) : NewsItem :=
  mkItem (Some (lit "headline")) (Some (lit "https://example.com/a")) None
         (Some (lit url)).

(** What the loop appends to [deduped]: the items whose key is new, each
    time widening [seen]. *)
Fixpoint first_seen (seen : gset (option pystr)) (results : list NewsItem)
    : list NewsItem :=
  match results with
  | [] => []
  | r :: rest =>
      if bool_decide (dedupe_key r ∈ seen) then first_seen seen rest
      else r :: first_seen ({[dedupe_key r]} ∪ seen) rest
  end.

(** Classes of events. *)
Definition is_search (ev : event) : bool :=
  match ev with EvSerperPost _ _ _ => true | _ => false end.

Definition is_generate (ev : event) : bool :=
  match ev with EvGenerate _ _ => true | _ => false end.

Definition is_llm_post (ev : event) : bool :=
  match ev with EvLLMPost _ _ _ => true | _ => false end.

Definition is_image_get (ev : event) : bool :=
  match ev with EvImageGet _ _ => true | _ => false end.

Definition is_delivery (ev : event) : bool :=
  match ev with EvTelegramPost _ _ _ => true | _ => false end.

(** How many events of a class a trace holds. *)
Definition count_events (p : event -> bool) (tr : list event) : nat :=
  length (filter (fun ev => p ev = true) tr).

(** What [litellm_generate] returns, case by case. *)
Definition generated_text_of (env : Env) (prompt : pystr)
    (reply : outcome llm_json) : pystr :=
  if negb (truthy (LITELLM_API_KEY env)) then
    lit "[MOCK LLM RESPONSE] " ++ take 400 prompt ++ lit "..."
  else
    match reply with
    | Val (JsonObject text generated_text body) =>
        or_str text (or_str generated_text (json_dumps body))
    | Val (JsonOther type_name) =>
        lit "[LLM_ERROR] " ++ str_of_exception (no_get_attribute type_name)
    | Raise e => lit "[LLM_ERROR] " ++ str_of_exception e
    end.

(** What a provider call adds to the result list: nothing when it raised. *)
Definition contribution (o : outcome (list NewsItem)) : list NewsItem :=
  match o with Val found => found | Raise _ => [] end.

(** The outline of a document: the block titles (the strings drawn while
    the bold font is set) and the pictures, in drawing order. *)
Inductive mark : Type :=
| BlockTitle (t : pystr)
| Picture (img : image_data).

Definition font_after (bold : bool) (op : canvas_op) : bool :=
  match op with
  | setFont name _ => bool_decide (name = Helvetica_Bold)
  | _ => bold
  end.

Definition mark_of (bold : bool) (op : canvas_op) : list mark :=
  match op with
  | drawString _ _ s => if bold then [BlockTitle s] else []
  | drawInlineImage img _ _ _ _ => [Picture img]
  | _ => []
  end.

Fixpoint outline_from (bold : bool) (ops : list canvas_op) : list mark :=
  match ops with
  | [] => []
  | op :: rest => mark_of bold op ++ outline_from (font_after bold op) rest
  end.

Definition outline (doc : list canvas_op) : list mark := outline_from false doc.

(** A run of canvas calls that starts and ends in the regular font and
    shows the marks [marks]. *)
Definition outlined (ops : list canvas_op) (marks : list mark) : Prop :=
  outline_from false ops = marks /\ fold_left font_after ops false = false.

(** The calls a text line can make. *)
Definition is_text_op (op : canvas_op) : bool :=
  match op with drawString _ _ _ | showPage => true | _ => false end.

(** An environment in which a download depends on the URL alone. *)
Definition steady_images (env : Env) (fetch : pystr -> outcome image_data) : Prop :=
  forall h url, image_get env h url = fetch url.

(** The picture an image slot yields: none when the slot is missing or
    its download fails. *)
Definition picture_of (fetch : pystr -> outcome image_data)
    (slot : option pystr) : list mark :=
  match slot with
  | Some url => match fetch url with Val img => [Picture img] | Raise _ => [] end
  | None => []
  end.

(** The second image goes with the map entry at index 1, when there are
    at least two images. *)
Definition second_image_marks (fetch : pystr -> outcome image_data)
    (images : list pystr) (i : nat) : list mark :=
  if (i =? 1)%nat && (1 <? length images)%nat
  then picture_of fetch (images !! 1%nat) else [].

(** What the map entry at index [i] shows: nothing for an English entry,
    else its title and, at index 1, the second image. *)
Definition entry_marks (fetch : pystr -> outcome image_data)
    (images : list pystr) (i : nat) (entry : pystr * pystr) : list mark :=
  if is_english entry.1 then []
  else BlockTitle (block_title entry.1) :: second_image_marks fetch images i.

(** The outline the layout rules prescribe for a whole document. *)
Definition expected_outline (fetch : pystr -> outcome image_data)
    (summary_texts_by_lang : dict) (images : list pystr) : list mark :=
  BlockTitle (lit "English Summary") :: picture_of fetch (images !! 0%nat)
  ++ concat (imap (entry_marks fetch images) summary_texts_by_lang).

(** *** Sample worlds, for running the model on concrete inputs *)

Definition connection_refused : exception :=
  ExternalError (lit "connection refused").

(** No credentials at all; the disk works, the network is down. *)
Definition env_unconfigured : Env :=
  mkEnv [] [] [] [] []
    (fun _ _ _ => Raise connection_refused)
    (fun _ _ _ => Raise connection_refused)
    (fun _ _ => Raise connection_refused)
    (fun _ => lit "20240102")
    (fun _ _ _ => Val tt)
    (fun _ _ => Val tt)
    (fun _ _ _ => Raise connection_refused).

(** The same world with given image downloads. *)
Definition env_with_images (get : list event -> pystr -> outcome image_data) : Env :=
  mkEnv [] [] [] [] []
    (fun _ _ _ => Raise connection_refused)
    (fun _ _ _ => Raise connection_refused)
    get
    (fun _ => lit "20240102")
    (fun _ _ _ => Val tt)
    (fun _ _ => Val tt)
    (fun _ _ _ => Raise connection_refused).

(** Every download succeeds; the stand-in thumbnail remembers its URL. *)
Definition fetch_by_url (url : pystr) : outcome image_data := Val (Thumbnail url).

(** The documents handed to [c.save()] in a trace, oldest first. *)
Definition saved_documents (tr : list event) : list (list canvas_op) :=
  omap (fun ev => match ev with EvSave _ doc _ => Some doc | _ => None end) tr.

(** Downloads fail until a first document has been saved. *)
Definition fetch_after_first_save (h : list event) (url : pystr)
    : outcome image_data :=
  match saved_documents h with
  | [] => Raise connection_refused
  | _ :: _ => Val (Thumbnail url)
  end.

(** The map the orchestrator builds, with short digests. *)
Definition sample_digests : dict :=
  [(lit "english", lit "Stocks rose."); (lit "arabic", lit "[ar] Stocks rose.");
   (lit "hindi", lit "[hi] Stocks rose."); (lit "hebrew", lit "[he] Stocks rose.")].

Definition image_a : pystr := lit "https://example.com/a.png".
Definition image_b : pystr := lit "https://example.com/b.png".
Definition sample_pdf : pystr := lit "daily_summary_20240102.pdf".

(** Two computations that return the same result whatever the histories
    they start from. *)
Definition same_result {A} (m1 m2 : M A) : Prop :=
  forall h1 h2, fst (m1 h1) = fst (m2 h2).

(** The negation of the guard of line 254. *)
Definition credentials_present (env : Env) : bool :=
  truthy (TELEGRAM_BOT_TOKEN env) && truthy (TELEGRAM_CHANNEL_ID env).

(** Credentials are set and the network answers, but the document is not
    there to be opened. *)
Definition env_missing_file : Env :=
  mkEnv [] [] [] (lit "123:abc") (lit "@channel")
    (fun _ _ _ => Raise connection_refused)
    (fun _ _ _ => Raise connection_refused)
    (fun _ _ => Raise connection_refused)
    (fun _ => lit "20240102")
    (fun _ _ _ => Val tt)
    (fun _ _ => Raise (ExternalError (lit "[Errno 2] No such file or directory")))
    (fun _ _ _ => Val 200).

(** Credentials are set, the disk works, the delivery endpoint answers
    with the given outcome. *)
Definition env_delivering (posted : outcome Z) : Env :=
  mkEnv [] [] [] (lit "123:abc") (lit "@channel")
    (fun _ _ _ => Raise connection_refused)
    (fun _ _ _ => Raise connection_refused)
    (fun _ _ => Raise connection_refused)
    (fun _ => lit "20240102")
    (fun _ _ _ => Val tt)
    (fun _ _ => Val tt)
    (fun _ _ _ => posted).

(** The English lookup of line 213 finds a string: [english] maps to a
    non-empty digest, or there is an [en] entry. *)
Definition english_entry_usable (d : dict) : Prop :=
  (exists text, dict_get (lit "english") d = Some text /\ truthy text = true)
  \/ is_Some (dict_get (lit "en") d).

(** The failures no stage absorbs: saving the document, opening it for
    upload, and the transport of the upload. *)
Definition escaped (ev : event) : bool :=
  match ev with
  | EvSave _ _ (Raise _) => true
  | EvOpen _ (Raise _) => true
  | EvTelegramPost _ _ (Raise _) => true
  | _ => false
  end.

(** How the stages after ingestion end: with [True], or with one of the
    three failures above as the last thing that happened. *)
Definition stages_end (o : outcome bool) (evs : list event) : Prop :=
  match o with
  | Val b => b = true /\ exists ev, last evs = Some ev /\ escaped ev = false
  | Raise _ => exists ev, last evs = Some ev /\ escaped ev = true
  end.

(** An environment with search credentials whose providers find nothing. *)
Definition env_no_news : Env :=
  mkEnv (lit "serper-key") [] [] (lit "123:abc") (lit "@channel")
    (fun _ _ _ => Val [])
    (fun _ _ _ => Raise connection_refused)
    (fun _ _ => Raise connection_refused)
    (fun _ => lit "20240102")
    (fun _ _ _ => Val tt)
    (fun _ _ => Val tt)
    (fun _ _ _ => Val 200).

(** Two provider answers that share a link. *)
Definition feed_item (t l : string) : NewsItem :=
  mkItem (Some (lit t)) (Some (lit l)) (Some (lit "...")) None.

Definition first_feed : list NewsItem :=
  [feed_item "Fed holds rates" "https://example.com/fed";
   feed_item "Oil slips" "https://example.com/oil"].

Definition second_feed : list NewsItem :=
  [feed_item "Oil slips again" "https://example.com/oil";
   feed_item "Tech rallies" "https://example.com/tech"].

Definition env_two_feeds : Env :=
  mkEnv (lit "serper-key") [] [] [] []
    (fun h _ _ => match h with [] => Val first_feed | _ :: _ => Val second_feed end)
    (fun _ _ _ => Raise connection_refused)
    (fun _ _ => Raise connection_refused)
    (fun _ => lit "20240102")
    (fun _ _ _ => Val tt)
    (fun _ _ => Val tt)
    (fun _ _ _ => Raise connection_refused).

(** The generation endpoint is configured but unreachable. *)
Definition env_llm_down : Env :=
  mkEnv [] [] (lit "llm-key") [] []
    (fun _ _ _ => Raise connection_refused)
    (fun _ _ _ => Raise connection_refused)
    (fun _ _ => Raise connection_refused)
    (fun _ => lit "20240102")
    (fun _ _ _ => Val tt)
    (fun _ _ => Val tt)
    (fun _ _ _ => Raise connection_refused).

(** *** Words used in the further properties *)

Definition is_sleep (ev : event) : bool :=
  match ev with EvSleep => true | _ => false end.

Definition is_open (ev : event) : bool :=
  match ev with EvOpen _ _ => true | _ => false end.

Definition is_now (ev : event) : bool :=
  match ev with EvNow _ => true | _ => false end.

Definition is_save (ev : event) : bool :=
  match ev with EvSave _ _ _ => true | _ => false end.

(** The URLs a trace downloads, oldest first. *)
Definition image_urls (tr : list event) : list pystr :=
  omap (fun ev => match ev with EvImageGet url _ => Some url | _ => None end) tr.

(** The block titles of an outline, and the pictures of an outline. *)
Definition titles (marks : list mark) : list pystr :=
  omap (fun m => match m with BlockTitle t => Some t | Picture _ => None end) marks.

Definition pictures (marks : list mark) : list image_data :=
  omap (fun m => match m with Picture img => Some img | BlockTitle _ => None end) marks.

(** The text lines of a document: the strings drawn while the regular
    font is set, each with its coordinates. *)
Fixpoint text_lines_from (bold : bool) (ops : list canvas_op)
    : list (Z * Z * pystr) :=
  match ops with
  | [] => []
  | op :: rest =>
      match op with
      | drawString x y s => if bold then [] else [(x, y, s)]
      | _ => []
      end ++ text_lines_from (font_after bold op) rest
  end.

Definition text_lines (doc : list canvas_op) : list (Z * Z * pystr) :=
  text_lines_from false doc.

(** A text line that starts at the left margin, sits between the bottom
    guard (margin + 50) and the top margin, and holds at most 120
    characters. *)
Definition line_in_page (l : Z * Z * pystr) : Prop :=
  l.1.1 = margin /\ margin + 50 <= l.1.2 <= page_h - margin
  /\ (length l.2 <= 120)%nat.

(** The pictures of a run of canvas calls, with their boxes. *)
Definition picture_boxes (ops : list canvas_op) : list (Z * Z * Z * Z) :=
  omap (fun op => match op with
                  | drawInlineImage _ x y w h => Some (x, y, w, h)
                  | _ => None
                  end) ops.

(** The languages of a map that get a block of their own, in order. *)
Definition translated_languages (d : dict) : list pystr :=
  filter (fun lang => is_english lang = false) (map fst d).

(** The events of the generation stages: invocations of the capability,
    its requests, and the pauses between translations. *)
Definition is_generation_stage (ev : event) : bool :=
  is_generate ev || is_llm_post ev || is_sleep ev.

(** The generation endpoint is configured and answers with a JSON list. *)
Definition env_llm_list_reply : Env :=
  mkEnv [] [] (lit "llm-key") [] []
    (fun _ _ _ => Raise connection_refused)
    (fun _ _ _ => Val (JsonOther (lit "list")))
    (fun _ _ => Raise connection_refused)
    (fun _ => lit "20240102")
    (fun _ _ _ => Val tt)
    (fun _ _ => Val tt)
    (fun _ _ _ => Raise connection_refused).

(** The keys of a dict after [d[k] = v]: a new key goes to the end. *)
Definition add_key (keys : list pystr) (k : pystr) : list pystr :=
  if decide (k ∈ keys) then keys else keys ++ [k].

(** A run of canvas calls that shows the marks [marks] and whose text
    lines all sit inside the page. *)
Definition laid_out (ops : list canvas_op) (marks : list mark) : Prop :=
  outlined ops marks /\ Forall line_in_page (text_lines_from false ops).

(** A picture box of 500 by 300 at the left margin that lies wholly
    between the bottom guard and the top margin. *)
Definition box_in_page (box : Z * Z * Z * Z) : Prop :=
  exists bottom, box = (margin, bottom, 500, 300)
                 /\ margin + 10 <= bottom /\ bottom + 300 <= page_h - margin - 10.

(** The file name and the caption the orchestrator derives from the
    date (lines 290-295). *)
Definition out_pdf_of (date : pystr) : pystr :=
  lit "daily_summary_" ++ date ++ lit ".pdf".

Definition caption_of (date : pystr) : pystr :=
  lit "Daily Market Summary - " ++ date.

(** An event of the publisher that concerns the file [path] and, for
    the upload, carries the caption [caption]. *)
Definition publishes (path caption : pystr) (ev : event) : Prop :=
  match ev with
  | EvOpen p _ => p = path
  | EvTelegramPost p c _ => p = path /\ c = caption
  | _ => False
  end.

(** The titles of the document of a run. *)
Definition run_titles : list pystr :=
  [lit "English Summary"; lit "Arabic Summary"; lit "Hindi Summary";
   lit "Hebrew Summary"].

(** An event that agrees with the date [date] of a run: the date string
    formatted at line 290 is that date, and the file saved, opened and
    uploaded is the file named after it, uploaded with the caption that
    carries it. *)
Definition dated (date : pystr) (ev : event) : Prop :=
  match ev with
  | EvNow d => d = date
  | EvSave p _ _ => p = out_pdf_of date
  | EvOpen p _ => p = out_pdf_of date
  | EvTelegramPost p c _ => p = out_pdf_of date /\ c = caption_of date
  | _ => True
  end.

(** The events a run may show when no credential is set: nothing goes
    to the search, generation or delivery services. *)
Definition is_offline_event (ev : event) : bool :=
  is_generate ev || is_sleep ev || is_now ev || is_image_get ev || is_save ev.

(** The language code of line 178:
    [LANGUAGE_CODES.get(target_lang.lower(), target_lang)]. *)
Definition language_code (target_lang : pystr) : pystr :=
  default target_lang (LANGUAGE_CODES !! lower target_lang).

(** *** The structure of a document *)

(** The strings a run of canvas calls draws, in order. *)
Definition drawn_strings (ops : list canvas_op) : list pystr :=
  omap (fun op => match op with drawString _ _ s => Some s | _ => None end) ops.

(** A name made of ASCII characters only; on such names [capitalize]
    is exactly [str.capitalize]. *)
Definition is_ascii (s : pystr) : bool := forallb (fun c => N.ltb c 128) s.

(** A block as [draw_text_block] draws it: the title in the bold font,
    then, in the regular font, every line of the text in order, cut to
    120 characters, with nothing but page breaks in between. *)
Definition text_block (title text : pystr) (ops : list canvas_op) : Prop :=
  exists y0 line_ops,
    ops = [setFont Helvetica_Bold 14; drawString margin y0 title;
           setFont Helvetica 11] ++ line_ops
    /\ Forall (fun op => is_text_op op = true) line_ops
    /\ drawn_strings line_ops = map (take 120) (split_lines text).

(** The block of a language of the map; its title is the capitalised
    name followed by " Summary". *)
Definition language_block (lang text : pystr) (ops : list canvas_op) : Prop :=
  exists title,
    text_block title text ops
    /\ (is_ascii lang = true -> title = capitalize lang ++ lit " Summary").

(** What an image slot draws, given the outcome of its download:
    nothing when the download failed, else the downloaded picture, 500
    by 300 at the left margin.  The second slot ([may_break]) may first
    start a new page, and then draws the picture at the top of it. *)
Definition picture_of_download (may_break : bool) (out : outcome image_data)
    (ops : list canvas_op) : Prop :=
  match out with
  | Val img =>
      (exists y0, ops = [drawInlineImage img margin y0 500 300])
      \/ (may_break = true
          /\ ops = [showPage;
                    drawInlineImage img margin (page_h - margin - 310) 500 300])
  | Raise _ => ops = []
  end.

(** What the image slot [slot] does: without a URL nothing, else one
    download of that URL and what its outcome draws. *)
Definition slot_picture (may_break : bool) (slot : option pystr)
    (evs : list event) (ops : list canvas_op) : Prop :=
  match slot with
  | None => evs = [] /\ ops = []
  | Some url =>
      exists out,
        evs = [EvImageGet url out] /\ picture_of_download may_break out ops
  end.

(** The part of the document and of the trace that the map entries from
    index [i] on account for: an English entry gives nothing; any other
    entry gives its block and, right after the block and before
    anything of the next entry, the picture of the second image slot
    when [i] is 1 and there are at least two images. *)
Fixpoint entries_laid (images : list pystr) (i : nat) (items : dict)
    (evs : list event) (ops : list canvas_op) : Prop :=
  match items with
  | [] => evs = [] /\ ops = []
  | (lang, text) :: rest =>
      if is_english lang then entries_laid images (S i) rest evs ops
      else
        exists block pic evs_pic evs' ops',
          ops = block ++ pic ++ ops'
          /\ evs = evs_pic ++ evs'
          /\ language_block lang text block
          /\ (if (i =? 1)%nat && (1 <? length images)%nat
              then slot_picture true (images !! 1%nat) evs_pic pic
              else evs_pic = [] /\ pic = [])
          /\ entries_laid images (S i) rest evs' ops'
  end.

(** The first image cannot be downloaded, the second can. *)
Definition fetch_second_only (url : pystr) : outcome image_data :=
  if decide (url = image_b) then Val (Thumbnail url) else Raise connection_refused.

(* ===================================================================== *)
(** * Properties *)
(* ===================================================================== *)

(** ** The image selector *)

Lemma collect_images_quota (results : list NewsItem) (images : list pystr)
    (max_images : Z) :
  Z.of_nat (length images) < max_images ->
  collect_images results images max_images =
    take (Z.to_nat max_images) (images ++ omap real_image results).
Proof.
  revert images. induction results as [|r rest IH]; intros images Hlt; simpl.
  - rewrite app_nil_r, take_ge; [done | lia].
  - unfold real_image at 1.
    destruct (image r) as [img|] eqn:Himg; [destruct (truthy img) eqn:Ht|].
    + destruct (Z.geb_spec (Z.of_nat (length (images ++ [img]))) max_images) as [Hge|Hlt'].
      * rewrite length_app in Hge; simpl in Hge.
        transitivity (take (Z.to_nat max_images)
                           ((images ++ [img]) ++ omap real_image rest));
          [|by rewrite <- app_assoc].
        rewrite take_app_le by (rewrite length_app; simpl; lia).
        rewrite take_ge; [done | rewrite length_app; simpl; lia].
      * rewrite IH by lia. by rewrite <- app_assoc.
    + destruct (Z.geb_spec (Z.of_nat (length images)) max_images); [lia | by apply IH].
    + destruct (Z.geb_spec (Z.of_nat (length images)) max_images); [lia | by apply IH].
Qed.

(** The [while] loop leaves through its guard, not for lack of fuel, and
    appends the placeholders numbered from the fill count + 1. *)
Lemma pad_images_exit (fuel : nat) (images : list pystr) (max_images : Z) :
  (Z.to_nat (max_images - Z.of_nat (length images)) <= fuel)%nat ->
  pad_images fuel images max_images =
    images ++ map placeholder
      (seq (length images) (Z.to_nat (max_images - Z.of_nat (length images)))).
Proof.
  revert images. induction fuel as [|fuel IH]; intros images Hfuel; simpl.
  - replace (Z.to_nat _) with 0%nat by lia. simpl. by rewrite app_nil_r.
  - destruct (Z.ltb_spec (Z.of_nat (length images)) max_images) as [Hlt|Hge].
    + rewrite IH by (rewrite length_app; simpl; lia).
      rewrite length_app; simpl.
      replace (Z.to_nat (max_images - Z.of_nat (length images)))
        with (S (Z.to_nat (max_images - Z.of_nat (length images + 1)%nat))) by lia.
      simpl. rewrite <- app_assoc. simpl. do 4 f_equal. lia.
    + replace (Z.to_nat _) with 0%nat by lia. simpl. by rewrite app_nil_r.
Qed.

(** For a quota of at least one the selector does what its docstring
    says: the first [max_images] real images in result order, then the
    numbered placeholders, [max_images] entries in all. *)
Lemma select_images_positive_quota (results : list NewsItem) (max_images : Z) :
  1 <= max_images ->
  let real := take (Z.to_nat max_images) (omap real_image results) in
  select_images_from_results results max_images =
    real ++ map placeholder (seq (length real) (Z.to_nat max_images - length real))
  /\ length (select_images_from_results results max_images) = Z.to_nat max_images.
Proof.
  intros Hk real. unfold select_images_from_results.
  rewrite collect_images_quota by (simpl; lia). simpl app. fold real.
  rewrite pad_images_exit by lia.
  assert (Hlen : (length real <= Z.to_nat max_images)%nat)
    by (unfold real; rewrite length_take; lia).
  replace (Z.to_nat (max_images - Z.of_nat (length real)))
    with (Z.to_nat max_images - length real)%nat by lia.
  split; [done|]. rewrite length_app, length_map, length_seq. lia.
Qed.

(** C2, at the quota 0 the claim allows: the first item's image is
    appended before the quota is tested, so one URL comes back although
    none was asked for (and the docstring promises "up to max_images").
    The claim's length [k] is not met at [k = 0]. *)
Theorem C2_select_images_zero_quota :
  select_images_from_results [item_with_image "https://example.com/a.png"] 0
    = [lit "https://example.com/a.png"]
  /\ length (select_images_from_results
               [item_with_image "https://example.com/a.png"] 0) = 1%nat.
Proof. split; reflexivity. Qed.

(** ** Deduplication *)

Lemma dedupe_loop_first_seen (results : list NewsItem)
    (seen : gset (option pystr)) (deduped : list NewsItem) :
  dedupe_loop results seen deduped = deduped ++ first_seen seen results.
Proof.
  revert seen deduped. induction results as [|r rest IH]; intros seen deduped; simpl.
  - by rewrite app_nil_r.
  - case_bool_decide; rewrite IH; [done|]. by rewrite <- app_assoc.
Qed.

Lemma first_seen_sublist (seen : gset (option pystr)) (results : list NewsItem) :
  first_seen seen results `sublist_of` results.
Proof.
  revert seen. induction results as [|r rest IH]; intros seen; simpl; [done|].
  case_bool_decide; [apply sublist_cons | apply sublist_skip]; apply IH.
Qed.

Lemma first_seen_keys_new (seen : gset (option pystr)) (results : list NewsItem)
    (r : NewsItem) :
  r ∈ first_seen seen results -> dedupe_key r ∉ seen.
Proof.
  revert seen. induction results as [|x rest IH]; intros seen; simpl.
  - by intros ?%elem_of_nil.
  - case_bool_decide as Hx; [apply IH|].
    intros [->|Hin%IH]%elem_of_cons; [done | set_solver].
Qed.

Lemma first_seen_keys_NoDup (seen : gset (option pystr)) (results : list NewsItem) :
  NoDup (dedupe_key <$> first_seen seen results).
Proof.
  revert seen. induction results as [|x rest IH]; intros seen; simpl.
  - constructor.
  - case_bool_decide as Hx; [apply IH|]. rewrite fmap_cons.
    constructor; [|apply IH].
    intros (r & Hk & Hin%first_seen_keys_new)%list_elem_of_fmap_1.
    set_solver.
Qed.

Lemma first_seen_keys_covered (seen : gset (option pystr))
    (results : list NewsItem) (r : NewsItem) :
  r ∈ results ->
  dedupe_key r ∈ seen \/
  exists r', r' ∈ first_seen seen results /\ dedupe_key r' = dedupe_key r.
Proof.
  revert seen. induction results as [|x rest IH]; intros seen; simpl.
  - by intros ?%elem_of_nil.
  - intros [->|Hin]%elem_of_cons.
    + case_bool_decide as Hx; [by left|].
      right. exists x. split; [apply elem_of_cons; by left | done].
    + case_bool_decide as Hx; [by apply IH|].
      destruct (IH ({[dedupe_key x]} ∪ seen) Hin) as [Hseen | (r' & Hr' & Hk)].
      * apply elem_of_union in Hseen as [->%elem_of_singleton | Hseen]; [|by left].
        right. exists x. split; [apply elem_of_cons; by left | done].
      * right. exists r'. split; [apply elem_of_cons; by right | done].
Qed.

(** The kept copy of a key is the first item of the input with that key. *)
Lemma first_seen_is_first (seen : gset (option pystr)) (results : list NewsItem)
    (r : NewsItem) :
  r ∈ first_seen seen results ->
  find (fun x => bool_decide (dedupe_key x = dedupe_key r)) results = Some r.
Proof.
  revert seen. induction results as [|x rest IH]; intros seen; simpl.
  - by intros ?%elem_of_nil.
  - case_bool_decide as Hx.
    + intros Hin. pose proof (first_seen_keys_new _ _ _ Hin) as Hnew.
      rewrite bool_decide_eq_false_2 by congruence. by eapply IH.
    + intros [->|Hin]%elem_of_cons.
      * by rewrite bool_decide_eq_true_2.
      * pose proof (first_seen_keys_new _ _ _ Hin) as Hnew.
        rewrite bool_decide_eq_false_2 by set_solver. by eapply IH.
Qed.

Lemma dedupe_first_seen (results : list NewsItem) :
  dedupe results = first_seen ∅ results.
Proof. unfold dedupe. by rewrite dedupe_loop_first_seen. Qed.

Lemma dedupe_nil_iff (results : list NewsItem) :
  dedupe results = [] <-> results = [].
Proof.
  rewrite dedupe_first_seen. split; [|by intros ->].
  destruct results as [|r rest]; [done|]. simpl.
  rewrite bool_decide_eq_false_2 by set_solver. done.
Qed.

(** ** Running the monad *)

Lemma bind_Val {A B} (m : M A) (f : A -> M B) (h h' : list event) (a : A) :
  m h = (Val a, h') -> bind m f h = f a h'.
Proof. unfold bind. by intros ->. Qed.

Lemma bind_Raise {A B} (m : M A) (f : A -> M B) (h h' : list event)
    (e : exception) :
  m h = (Raise e, h') -> bind m f h = (Raise e, h').
Proof. unfold bind. by intros ->. Qed.

Lemma count_events_app (p : event -> bool) (tr1 tr2 : list event) :
  count_events p (tr1 ++ tr2) = (count_events p tr1 + count_events p tr2)%nat.
Proof. unfold count_events. by rewrite filter_app, length_app. Qed.

Lemma count_events_none (p q : event -> bool) (tr : list event) :
  Forall (fun ev => q ev = true) tr ->
  (forall ev, q ev = true -> p ev = false) ->
  count_events p tr = 0%nat.
Proof.
  intros Hall Hpq. unfold count_events.
  induction Hall as [|ev tr Hev _ IH]; [done|].
  rewrite filter_cons. destruct (decide (p ev = true)) as [Hp|_]; [|done].
  rewrite (Hpq ev Hev) in Hp. done.
Qed.

(** ** The generation capability *)

Lemma or_str_truthy (a : option pystr) (b : pystr) :
  truthy b = true -> truthy (or_str a b) = true.
Proof.
  intros Hb. unfold or_str. destruct a as [s|]; [|done].
  by destruct (truthy s) eqn:Hs.
Qed.

Lemma litellm_generate_runs (env : Env) (prompt : pystr) (max_tokens : Z)
    (h : list event) :
  let h1 := h ++ [EvGenerate prompt max_tokens] in
  let reply := llm_post env h1 prompt max_tokens in
  litellm_generate env prompt max_tokens h =
    (Val (generated_text_of env prompt reply),
     if negb (truthy (LITELLM_API_KEY env)) then h1
     else h1 ++ [EvLLMPost prompt max_tokens reply]).
Proof.
  unfold litellm_generate, generated_text_of, bind, emit, try_except, call, ret, raise.
  destruct (negb (truthy (LITELLM_API_KEY env))); [done|].
  simpl. destruct (llm_post env _ prompt max_tokens) as [[text gen body|ty]|e]; done.
Qed.

Lemma generated_text_truthy (env : Env) (prompt : pystr) (reply : outcome llm_json) :
  truthy (generated_text_of env prompt reply) = true.
Proof.
  unfold generated_text_of. destruct (negb _); [done|].
  destruct reply as [[text gen body|ty]|e]; try done.
  by do 2 apply or_str_truthy.
Qed.

(** One invocation of the capability: the ghost entry, then at most the
    network exchange. *)
Lemma litellm_generate_trace (env : Env) (prompt : pystr) (max_tokens : Z)
    (h : list event) :
  exists out evs,
    litellm_generate env prompt max_tokens h =
      (Val out, h ++ EvGenerate prompt max_tokens :: evs)
    /\ truthy out = true
    /\ Forall (fun ev => is_llm_post ev = true) evs.
Proof.
  pose proof (litellm_generate_runs env prompt max_tokens h) as Hrun. simpl in Hrun.
  eexists. destruct (negb (truthy (LITELLM_API_KEY env))).
  - exists []. rewrite Hrun. split; [done|]. split; [apply generated_text_truthy | done].
  - eexists [_]. rewrite Hrun, <- app_assoc. split; [done|].
    split; [apply generated_text_truthy | by repeat constructor].
Qed.

(** C9: [litellm_generate] returns a string on every input, environment
    and history.  Without credentials that string is the mock echo of the
    first 400 characters of the prompt; with credentials, when the request
    raises, it is the text of the exception behind the tag "[LLM_ERROR] ". *)
Theorem C9_litellm_generate_never_raises (env : Env) (prompt : pystr)
    (max_tokens : Z) (h : list event) :
  (exists out, fst (litellm_generate env prompt max_tokens h) = Val out)
  /\ (truthy (LITELLM_API_KEY env) = false ->
      fst (litellm_generate env prompt max_tokens h) =
        Val (lit "[MOCK LLM RESPONSE] " ++ (take 400 prompt ++ lit "...")))
  /\ (forall e,
        truthy (LITELLM_API_KEY env) = true ->
        llm_post env (h ++ [EvGenerate prompt max_tokens]) prompt max_tokens = Raise e ->
        fst (litellm_generate env prompt max_tokens h) =
          Val (lit "[LLM_ERROR] " ++ str_of_exception e)).
Proof.
  pose proof (litellm_generate_runs env prompt max_tokens h) as Hrun. simpl in Hrun.
  rewrite Hrun. simpl. unfold generated_text_of.
  split; [by eexists|]. split.
  - by intros ->.
  - intros e -> ->. done.
Qed.

(** ** Ingestion *)

Lemma search_serper_trace (env : Env) (query : pystr) (n : nat) (h : list event) :
  exists evs, snd (search_serper env query n h) = h ++ evs
              /\ Forall (fun ev => is_search ev = true) evs.
Proof.
  unfold search_serper. destruct (negb _).
  - exists []. by rewrite app_nil_r.
  - exists [EvSerperPost query n (serper_post env h query n)].
    unfold bind, call, ret. simpl.
    split; [by destruct (serper_post env h query n) | by repeat constructor].
Qed.

Lemma search_tavily_trace (env : Env) (query : pystr) (n : nat) (h : list event) :
  exists evs, snd (search_tavily env query n h) = h ++ evs
              /\ Forall (fun ev => is_search ev = true) evs.
Proof. unfold search_tavily. destruct (negb _); apply search_serper_trace. Qed.

(** The agent never raises: it returns the deduplicated concatenation of
    what the two provider calls contributed, secondary first. *)
Lemma search_agent_merges (env : Env) (h : list event) :
  let first := search_tavily env search_query 5 h in
  let second := search_serper env search_query 5 (snd first) in
  search_agent_us_financial_news env h =
    (Val (dedupe (contribution (fst first) ++ contribution (fst second))),
     snd second).
Proof.
  unfold search_agent_us_financial_news, bind, try_except, ret. simpl.
  destruct (search_tavily env search_query 5 h) as [[l1|e1] h1]; simpl;
    destruct (search_serper env search_query 5 h1) as [[l2|e2] h2]; simpl;
    by rewrite ?app_nil_r.
Qed.

Lemma search_agent_trace (env : Env) (h : list event) :
  exists results evs,
    search_agent_us_financial_news env h = (Val results, h ++ evs)
    /\ Forall (fun ev => is_search ev = true) evs.
Proof.
  pose proof (search_agent_merges env h) as Hrun. simpl in Hrun.
  destruct (search_tavily_trace env search_query 5 h) as (evs1 & H1 & Hall1).
  destruct (search_serper_trace env search_query 5
              (snd (search_tavily env search_query 5 h))) as (evs2 & H2 & Hall2).
  eexists. exists (evs1 ++ evs2). rewrite Hrun, H2, H1, <- app_assoc.
  split; [done|]. by apply Forall_app.
Qed.

Lemma find_pointwise {A} (f g : A -> bool) (l : list A) :
  (forall x, f x = g x) -> find f l = find g l.
Proof.
  intros Hfg. induction l as [|x l IH]; simpl; [done|]. by rewrite Hfg, IH.
Qed.

(** C3: when the two provider calls return the lists [l1] and [l2], the
    result set of ingestion holds exactly one item for each dedupe key of
    [l1 ++ l2], the key of an item being its link, or its title when the
    link is [None] or empty: no key occurs twice, every key of the input
    is kept, the kept item is the first one of [l1 ++ l2] with that key,
    and the kept items stand in their order of first appearance. *)
Theorem C3_ingestion_deduplicates (env : Env) (h : list event)
    (l1 l2 : list NewsItem) :
  fst (search_tavily env search_query 5 h) = Val l1 ->
  fst (search_serper env search_query 5
         (snd (search_tavily env search_query 5 h))) = Val l2 ->
  let key := fun r : NewsItem =>
               match link r with
               | Some (c :: s) => Some (c :: s)
               | Some [] => title r
               | None => title r
               end in
  exists merged,
    fst (search_agent_us_financial_news env h) = Val merged
    /\ NoDup (key <$> merged)
    /\ (forall r, r ∈ l1 ++ l2 ->
          exists r', r' ∈ merged /\ key r' = key r)
    /\ (forall r', r' ∈ merged ->
          find (fun x => bool_decide (key x = key r')) (l1 ++ l2) = Some r')
    /\ merged `sublist_of` (l1 ++ l2).
Proof.
  intros H1 H2 key. pose proof (search_agent_merges env h) as Hrun. simpl in Hrun.
  rewrite H1, H2 in Hrun. simpl in Hrun.
  assert (Hkey : forall r, key r = dedupe_key r).
  { intros r. unfold key, dedupe_key, py_or. by destruct (link r) as [[|c s]|]. }
  exists (dedupe (l1 ++ l2)). rewrite Hrun. split; [done|].
  rewrite dedupe_first_seen. split; [|split; [|split]].
  - rewrite (list_fmap_ext key dedupe_key _ (fun _ r _ => Hkey r)).
    apply first_seen_keys_NoDup.
  - intros r Hr. rewrite Hkey.
    destruct (first_seen_keys_covered ∅ _ _ Hr) as [Hseen|(r' & Hr' & Heq)].
    + by apply not_elem_of_empty in Hseen.
    + exists r'. by rewrite Hkey.
  - intros r' Hr'. rewrite <- (first_seen_is_first ∅ (l1 ++ l2) r' Hr').
    apply find_pointwise. intros x. by rewrite !Hkey.
  - apply first_seen_sublist.
Qed.

(** ** The summarizer *)

Lemma context_lines_take (results : list NewsItem) :
  context_lines (take 6 results) = context_lines results.
Proof. unfold context_lines. by rewrite take_take. Qed.

Lemma summary_prompt_take (results : list NewsItem) :
  summary_prompt (take 6 results) = summary_prompt results.
Proof. unfold summary_prompt. by rewrite context_lines_take. Qed.

(** C8: on the empty result set the summarizer returns the sentinel and
    leaves the trace as it was (no call at all); on a non-empty one it
    invokes the generation capability exactly once, with the prompt built
    from the first 6 items only, which has one context line per item used
    and never more than 6. *)
Theorem C8_summary_agent_generate (env : Env) (h : list event) :
  summary_agent_generate env [] h =
    (Val (lit "No results found in the last hour."), h)
  /\ (forall results, results <> [] ->
        exists out evs,
          summary_agent_generate env results h = (Val out, h ++ evs)
          /\ count_events is_generate evs = 1%nat
          /\ head evs = Some (EvGenerate (summary_prompt (take 6 results)) 600)
          /\ length (context_lines results) = Nat.min 6 (length results)).
Proof.
  split; [done|]. intros results Hne.
  destruct results as [|r rest]; [done|]. unfold summary_agent_generate.
  destruct (litellm_generate_trace env (summary_prompt (r :: rest)) 600 h)
    as (out & evs & Hrun & _ & Hall).
  exists out, (EvGenerate (summary_prompt (r :: rest)) 600 :: evs).
  split; [done|]. split; [|split].
  - change (count_events is_generate (?x :: evs))
      with (S (count_events is_generate evs)) at 1.
    rewrite (count_events_none is_generate is_llm_post evs Hall); [done|].
    by intros [].
  - by rewrite summary_prompt_take.
  - unfold context_lines. by rewrite length_imap, length_take.
Qed.

(** ** The renderer *)

Lemma outline_from_app (bold : bool) (ops1 ops2 : list canvas_op) :
  outline_from bold (ops1 ++ ops2) =
    outline_from bold ops1 ++ outline_from (fold_left font_after ops1 bold) ops2.
Proof.
  revert bold. induction ops1 as [|op ops1 IH]; intros bold; simpl; [done|].
  by rewrite IH, app_assoc.
Qed.

Lemma outlined_nil : outlined [] [].
Proof. by split. Qed.

Lemma outlined_app (ops1 ops2 : list canvas_op) (marks1 marks2 : list mark) :
  outlined ops1 marks1 -> outlined ops2 marks2 ->
  outlined (ops1 ++ ops2) (marks1 ++ marks2).
Proof.
  intros [Ho1 Hf1] [Ho2 Hf2]. split.
  - by rewrite outline_from_app, Hf1, Ho1, Ho2.
  - by rewrite fold_left_app, Hf1.
Qed.

Lemma text_ops_outlined (ops : list canvas_op) :
  Forall (fun op => is_text_op op = true) ops -> outlined ops [].
Proof.
  induction 1 as [|op ops Hop _ [IHo IHf]]; [apply outlined_nil|].
  destruct op; try done; by split.
Qed.

Lemma draw_lines_canvas (lines : list pystr) (st : render_state) :
  exists ops, canvas (fold_left draw_line lines st) = canvas st ++ ops
              /\ Forall (fun op => is_text_op op = true) ops.
Proof.
  revert st. induction lines as [|line lines IH]; intros st; simpl.
  - exists []. by rewrite app_nil_r.
  - destruct (IH (draw_line st line)) as (ops & -> & Hops).
    unfold draw_line. destruct (y st <? margin + 50); simpl.
    + exists (showPage :: drawString margin (page_h - margin) (take 120 line) :: ops).
      rewrite <- !app_assoc. split; [done | by repeat constructor].
    + exists (drawString margin (y st) (take 120 line) :: ops).
      rewrite <- !app_assoc. split; [done | by repeat constructor].
Qed.

(** A block of text given as a string is drawn without error and shows
    in the outline as its title. *)
Lemma draw_text_block_Some (title text : pystr) (st : render_state) :
  exists st' ops,
    draw_text_block title (Some text) st = Val st'
    /\ canvas st' = canvas st ++ ops
    /\ outlined ops [BlockTitle title].
Proof.
  unfold draw_text_block.
  destruct (draw_lines_canvas (split_lines text)
              (draw (setFont Helvetica 11)
                 (move_down 18
                    (draw (drawString margin (y (draw (setFont Helvetica_Bold 14) st)) title)
                       (draw (setFont Helvetica_Bold 14) st)))))
    as (ops & Hcanvas & Hops).
  eexists. exists ([setFont Helvetica_Bold 14; drawString margin (y st) title;
                    setFont Helvetica 11] ++ ops).
  split; [done|]. split.
  - change (canvas (move_down 10 ?x)) with (canvas x).
    rewrite Hcanvas. simpl. by rewrite <- !app_assoc.
  - apply (outlined_app [_; _; _] ops [BlockTitle title] []);
      [by split | by apply text_ops_outlined].
Qed.

Lemma draw_text_block_None (title : pystr) (st : render_state) :
  draw_text_block title None st = Raise none_has_no_split.
Proof. done. Qed.

Lemma place_first_image_runs (env : Env) (fetch : pystr -> outcome image_data)
    (images : list pystr) (st : render_state) (h : list event) :
  exists st' evs ops,
    place_first_image env images st h = (Val st', h ++ evs)
    /\ Forall (fun ev => is_image_get ev = true) evs
    /\ canvas st' = canvas st ++ ops
    /\ (steady_images env fetch -> outlined ops (picture_of fetch (images !! 0%nat))).
Proof.
  unfold place_first_image. destruct (images !! 0%nat) as [url|].
  - unfold try_except, bind, call, ret. simpl.
    destruct (image_get env h url) as [img|e] eqn:Hget.
    + exists (move_down 320 (draw (drawInlineImage img margin (y st - 310) 500 300) st)),
        [EvImageGet url (Val img)],
        [drawInlineImage img margin (y st - 310) 500 300].
      split; [done|]. split; [by repeat constructor|]. split; [done|].
      intros Hfetch. by rewrite <- (Hfetch h url), Hget.
    + exists st, [EvImageGet url (Raise e)], [].
      rewrite app_nil_r. split; [done|]. split; [by repeat constructor|].
      split; [done|]. intros Hfetch. by rewrite <- (Hfetch h url), Hget.
  - exists st, [], []. rewrite !app_nil_r. by repeat split.
Qed.

Lemma place_second_image_runs (env : Env) (fetch : pystr -> outcome image_data)
    (images : list pystr) (st : render_state) (h : list event) :
  exists st' evs ops,
    place_second_image env images st h = (Val st', h ++ evs)
    /\ Forall (fun ev => is_image_get ev = true) evs
    /\ canvas st' = canvas st ++ ops
    /\ (steady_images env fetch -> outlined ops (picture_of fetch (images !! 1%nat))).
Proof.
  unfold place_second_image. destruct (images !! 1%nat) as [url|].
  - unfold try_except, bind, call, ret. simpl.
    destruct (image_get env h url) as [img|e] eqn:Hget.
    + destruct (y st <? margin + 320) eqn:Hy.
      * exists (move_down 320
                  (draw (drawInlineImage img margin (page_h - margin - 310) 500 300)
                     (new_page st))),
          [EvImageGet url (Val img)],
          [showPage; drawInlineImage img margin (page_h - margin - 310) 500 300].
        split; [done|]. split; [by repeat constructor|].
        split; [simpl; by rewrite <- app_assoc|].
        intros Hfetch. by rewrite <- (Hfetch h url), Hget.
      * exists (move_down 320 (draw (drawInlineImage img margin (y st - 310) 500 300) st)),
          [EvImageGet url (Val img)],
          [drawInlineImage img margin (y st - 310) 500 300].
        split; [done|]. split; [by repeat constructor|]. split; [done|].
        intros Hfetch. by rewrite <- (Hfetch h url), Hget.
    + exists st, [EvImageGet url (Raise e)], [].
      rewrite app_nil_r. split; [done|]. split; [by repeat constructor|].
      split; [done|]. intros Hfetch. by rewrite <- (Hfetch h url), Hget.
  - exists st, [], []. rewrite !app_nil_r. by repeat split.
Qed.

Lemma render_languages_cons (env : Env) (images : list pystr) (i : nat)
    (lang text : pystr) (rest : list (pystr * pystr)) (st : render_state) :
  render_languages env images i ((lang, text) :: rest) st =
    if is_english lang then render_languages env images (S i) rest st
    else
      let* st := lift (draw_text_block (block_title lang) (Some text) st) in
      let* st :=
        if (i =? 1)%nat && (1 <? length images)%nat
        then place_second_image env images st
        else ret st in
      render_languages env images (S i) rest st.
Proof. done. Qed.

Lemma render_languages_runs (env : Env) (fetch : pystr -> outcome image_data)
    (images : list pystr) (items : list (pystr * pystr)) :
  forall (i : nat) (st : render_state) (h : list event),
  exists st' evs ops,
    render_languages env images i items st h = (Val st', h ++ evs)
    /\ Forall (fun ev => is_image_get ev = true) evs
    /\ canvas st' = canvas st ++ ops
    /\ (steady_images env fetch ->
        outlined ops
          (concat (imap (fun j => entry_marks fetch images (i + j)) items))).
Proof.
  induction items as [|[lang text] rest IH]; intros i st h.
  - exists st, [], []. rewrite !app_nil_r. repeat split; done.
  - assert (Hshift :
      imap ((fun j => entry_marks fetch images (i + j)) ∘ S) rest =
      imap (fun j => entry_marks fetch images (S i + j)) rest).
    { apply imap_ext. intros j x _. simpl. f_equal. lia. }
    rewrite render_languages_cons, imap_cons, Hshift, Nat.add_0_r. simpl concat.
    unfold entry_marks at 1. simpl fst.
    destruct (is_english lang) eqn:Hlang.
    + destruct (IH (S i) st h) as (st' & evs & ops & Hrun & Hevs & Hcanvas & Hout).
      exists st', evs, ops. done.
    + destruct (draw_text_block_Some (block_title lang) text st)
        as (st1 & ops1 & Hblock & Hcanvas1 & Hout1).
      assert (Hsecond : exists st2 evs2 ops2,
        (if (i =? 1)%nat && (1 <? length images)%nat
         then place_second_image env images st1 else ret st1) h = (Val st2, h ++ evs2)
        /\ Forall (fun ev => is_image_get ev = true) evs2
        /\ canvas st2 = canvas st1 ++ ops2
        /\ (steady_images env fetch ->
            outlined ops2 (second_image_marks fetch images i))).
      { unfold second_image_marks.
        destruct ((i =? 1)%nat && (1 <? length images)%nat).
        - apply place_second_image_runs.
        - exists st1, [], []. rewrite !app_nil_r. repeat split; done. }
      destruct Hsecond as (st2 & evs2 & ops2 & Hrun2 & Hevs2 & Hcanvas2 & Hout2).
      destruct (IH (S i) st2 (h ++ evs2))
        as (st3 & evs3 & ops3 & Hrun3 & Hevs3 & Hcanvas3 & Hout3).
      exists st3, (evs2 ++ evs3), (ops1 ++ ops2 ++ ops3).
      split; [|split; [by apply Forall_app | split]].
      * unfold bind at 1. unfold lift. rewrite Hblock.
        unfold bind at 1. rewrite Hrun2, Hrun3. by rewrite <- app_assoc.
      * rewrite Hcanvas3, Hcanvas2, Hcanvas1. by rewrite <- !app_assoc.
      * intros Hfetch.
        apply (outlined_app ops1 (ops2 ++ ops3) [BlockTitle (block_title lang)]);
          [done|]. apply outlined_app; auto.
Qed.

(** The renderer up to [c.save()], when the English lookup finds a
    string: it does not raise, it only downloads images, and the canvas
    begins with the English block. *)
Lemma render_runs (env : Env) (fetch : pystr -> outcome image_data)
    (summary_texts_by_lang : dict) (images : list pystr) (h : list event)
    (text : pystr) :
  py_or (dict_get (lit "english") summary_texts_by_lang)
        (dict_get (lit "en") summary_texts_by_lang) = Some text ->
  exists st0 st evs ops,
    draw_text_block (lit "English Summary") (Some text)
      (mkState (page_h - margin) []) = Val st0
    /\ render env summary_texts_by_lang images h = (Val st, h ++ evs)
    /\ Forall (fun ev => is_image_get ev = true) evs
    /\ canvas st = canvas st0 ++ ops
    /\ (steady_images env fetch ->
        outline (canvas st) = expected_outline fetch summary_texts_by_lang images).
Proof.
  intros Heng. unfold render. rewrite Heng.
  destruct (draw_text_block_Some (lit "English Summary") text (mkState (page_h - margin) []))
    as (st0 & ops0 & Hblock & Hcanvas0 & Hout0).
  destruct (place_first_image_runs env fetch images st0 h)
    as (st1 & evs1 & ops1 & Hrun1 & Hevs1 & Hcanvas1 & Hout1).
  destruct (render_languages_runs env fetch images summary_texts_by_lang 0 st1 (h ++ evs1))
    as (st2 & evs2 & ops2 & Hrun2 & Hevs2 & Hcanvas2 & Hout2).
  exists st0, st2, (evs1 ++ evs2), (ops1 ++ ops2).
  split; [done|]. split; [|split; [by apply Forall_app | split]].
  - unfold bind at 1. unfold lift. rewrite Hblock.
    unfold bind at 1. rewrite Hrun1, Hrun2. by rewrite <- app_assoc.
  - rewrite Hcanvas2, Hcanvas1. by rewrite <- app_assoc.
  - intros Hfetch. unfold outline, expected_outline.
    rewrite Hcanvas2, Hcanvas1, Hcanvas0. simpl canvas. simpl app at 1.
    rewrite <- app_assoc.
    apply (outlined_app ops0 (ops1 ++ ops2) [BlockTitle (lit "English Summary")]);
      [done|]. apply outlined_app; auto.
Qed.

Lemma create_pdf_runs (env : Env) (summary_texts_by_lang : dict)
    (images : list pystr) (out_path : pystr) (h : list event)
    (st : render_state) (evs : list event) :
  render env summary_texts_by_lang images h = (Val st, h ++ evs) ->
  let saved := canvas_save env (h ++ evs) out_path (canvas st) in
  create_pdf env summary_texts_by_lang images out_path h =
    (saved, h ++ evs ++ [EvSave out_path (canvas st) saved]).
Proof.
  intros Hrender. unfold create_pdf, bind. rewrite Hrender.
  unfold call. by rewrite <- app_assoc.
Qed.

(** ** The structure of the document, segment by segment *)

Lemma drawn_strings_app (ops1 ops2 : list canvas_op) :
  drawn_strings (ops1 ++ ops2) = drawn_strings ops1 ++ drawn_strings ops2.
Proof. unfold drawn_strings. apply omap_app. Qed.

Lemma draw_lines_strings (lines : list pystr) (st : render_state) :
  exists ops,
    canvas (fold_left draw_line lines st) = canvas st ++ ops
    /\ Forall (fun op => is_text_op op = true) ops
    /\ drawn_strings ops = map (take 120) lines.
Proof.
  revert st. induction lines as [|line lines IH]; intros st.
  - exists []. simpl. by rewrite app_nil_r.
  - destruct (IH (draw_line st line)) as (ops & Hcanvas & Hops & Hstrings).
    cbn [fold_left map]. rewrite Hcanvas. unfold draw_line.
    destruct (y st <? margin + 50); simpl.
    + exists (showPage :: drawString margin (page_h - margin) (take 120 line) :: ops).
      rewrite <- !app_assoc. split; [done|]. split; [by repeat constructor|].
      simpl. by rewrite <- Hstrings.
    + exists (drawString margin (y st) (take 120 line) :: ops).
      rewrite <- !app_assoc. split; [done|]. split; [by repeat constructor|].
      simpl. by rewrite <- Hstrings.
Qed.

Lemma draw_text_block_block (title text : pystr) (st : render_state) :
  exists st' ops,
    draw_text_block title (Some text) st = Val st'
    /\ canvas st' = canvas st ++ ops
    /\ text_block title text ops.
Proof.
  unfold draw_text_block.
  set (st1 := draw (setFont Helvetica 11)
                (move_down 18
                   (draw (drawString margin (y (draw (setFont Helvetica_Bold 14) st)) title)
                      (draw (setFont Helvetica_Bold 14) st)))).
  destruct (draw_lines_strings (split_lines text) st1) as (ops & Hcanvas & Hops & Hstrings).
  eexists. exists ([setFont Helvetica_Bold 14; drawString margin (y st) title;
                    setFont Helvetica 11] ++ ops).
  split; [done|]. split.
  - change (canvas (move_down 10 ?x)) with (canvas x).
    rewrite Hcanvas. unfold st1. simpl. by rewrite <- !app_assoc.
  - by exists (y st), ops.
Qed.

Lemma place_first_image_slot (env : Env) (images : list pystr)
    (st : render_state) (h : list event) :
  exists st' evs ops,
    place_first_image env images st h = (Val st', h ++ evs)
    /\ canvas st' = canvas st ++ ops
    /\ slot_picture false (images !! 0%nat) evs ops.
Proof.
  unfold place_first_image, slot_picture. destruct (images !! 0%nat) as [url|].
  - unfold try_except, bind, call, ret. simpl.
    destruct (image_get env h url) as [img|e].
    + eexists _, _, [drawInlineImage img margin (y st - 310) 500 300].
      split; [done|]. split; [done|]. eexists. split; [done|].
      left. by exists (y st - 310).
    + exists st, [EvImageGet url (Raise e)], []. rewrite app_nil_r.
      split; [done|]. split; [done|]. by eexists.
  - exists st, [], []. by rewrite !app_nil_r.
Qed.

Lemma place_second_image_slot (env : Env) (images : list pystr)
    (st : render_state) (h : list event) :
  exists st' evs ops,
    place_second_image env images st h = (Val st', h ++ evs)
    /\ canvas st' = canvas st ++ ops
    /\ slot_picture true (images !! 1%nat) evs ops.
Proof.
  unfold place_second_image, slot_picture. destruct (images !! 1%nat) as [url|].
  - unfold try_except, bind, call, ret. simpl.
    destruct (image_get env h url) as [img|e].
    + destruct (y st <? margin + 320).
      * eexists _, _,
          [showPage; drawInlineImage img margin (page_h - margin - 310) 500 300].
        split; [done|]. split; [simpl; by rewrite <- app_assoc|].
        eexists. split; [done|]. by right.
      * eexists _, _, [drawInlineImage img margin (y st - 310) 500 300].
        split; [done|]. split; [done|]. eexists. split; [done|].
        left. by exists (y st - 310).
    + exists st, [EvImageGet url (Raise e)], []. rewrite app_nil_r.
      split; [done|]. split; [done|]. by eexists.
  - exists st, [], []. by rewrite !app_nil_r.
Qed.

Lemma render_languages_entries (env : Env) (images : list pystr) (items : dict) :
  forall (i : nat) (st : render_state) (h : list event),
  exists st' evs ops,
    render_languages env images i items st h = (Val st', h ++ evs)
    /\ canvas st' = canvas st ++ ops
    /\ entries_laid images i items evs ops.
Proof.
  induction items as [|[lang text] rest IH]; intros i st h.
  - exists st, [], []. by rewrite !app_nil_r.
  - rewrite render_languages_cons. cbn [entries_laid].
    destruct (is_english lang); [apply IH|].
    destruct (draw_text_block_block (block_title lang) text st)
      as (st1 & block & Hblock & Hcanvas1 & Htext).
    assert (Hsecond : exists st2 evs_pic pic,
      (if (i =? 1)%nat && (1 <? length images)%nat
       then place_second_image env images st1 else ret st1) h = (Val st2, h ++ evs_pic)
      /\ canvas st2 = canvas st1 ++ pic
      /\ (if (i =? 1)%nat && (1 <? length images)%nat
          then slot_picture true (images !! 1%nat) evs_pic pic
          else evs_pic = [] /\ pic = [])).
    { destruct ((i =? 1)%nat && (1 <? length images)%nat).
      - apply place_second_image_slot.
      - exists st1, [], []. by rewrite !app_nil_r. }
    destruct Hsecond as (st2 & evs_pic & pic & Hrun2 & Hcanvas2 & Hpic).
    destruct (IH (S i) st2 (h ++ evs_pic)) as (st3 & evs' & ops' & Hrun3 & Hcanvas3 & Hrest).
    exists st3, (evs_pic ++ evs'), (block ++ pic ++ ops').
    split; [|split].
    + unfold bind at 1. unfold lift. rewrite Hblock.
      unfold bind at 1. rewrite Hrun2, Hrun3. by rewrite <- app_assoc.
    + rewrite Hcanvas3, Hcanvas2, Hcanvas1. by rewrite <- !app_assoc.
    + exists block, pic, evs_pic, evs', ops'.
      split; [done|]. split; [done|]. split; [|done].
      exists (block_title lang). by split.
Qed.

(** The renderer up to [c.save()], segment by segment: the English
    block, what the first image slot draws, then what the map entries
    draw; the downloads split accordingly. *)
Lemma render_structure (env : Env) (summary_texts_by_lang : dict)
    (images : list pystr) (h : list event) (text : pystr) :
  py_or (dict_get (lit "english") summary_texts_by_lang)
        (dict_get (lit "en") summary_texts_by_lang) = Some text ->
  exists st english pic1 entries evs1 evs2,
    render env summary_texts_by_lang images h = (Val st, h ++ evs1 ++ evs2)
    /\ canvas st = english ++ pic1 ++ entries
    /\ text_block (lit "English Summary") text english
    /\ slot_picture false (images !! 0%nat) evs1 pic1
    /\ entries_laid images 0 summary_texts_by_lang evs2 entries.
Proof.
  intros Heng. unfold render. rewrite Heng.
  destruct (draw_text_block_block (lit "English Summary") text (mkState (page_h - margin) []))
    as (st0 & english & Hblock & Hcanvas0 & Henglish).
  destruct (place_first_image_slot env images st0 h)
    as (st1 & evs1 & pic1 & Hrun1 & Hcanvas1 & Hpic1).
  destruct (render_languages_entries env images summary_texts_by_lang 0 st1 (h ++ evs1))
    as (st2 & evs2 & entries & Hrun2 & Hcanvas2 & Hentries).
  exists st2, english, pic1, entries, evs1, evs2.
  split; [|split; [|done]].
  - unfold bind at 1. unfold lift. rewrite Hblock.
    unfold bind at 1. rewrite Hrun1, Hrun2. by rewrite <- app_assoc.
  - rewrite Hcanvas2, Hcanvas1, Hcanvas0. simpl canvas. simpl app at 1.
    by rewrite <- app_assoc.
Qed.

(** ** Placement of the second image *)

(** C4: every document that [create_pdf] hands to [c.save()], cut into
    its segments.  The document is the English block, then what the
    first image slot draws, then what the map entries draw in map order
    ([entries_laid], counting from index 0 over the whole map, English
    entry included).  Each non-English entry draws its complete block
    (title and every line of its text); the second image is downloaded
    and drawn right after the block of the entry at index 1, before
    anything of the next entry, and after no other block; it is skipped,
    download included, when there are fewer than 2 images (and when the
    entry at index 1 is English or missing).  With English as the first
    entry, that block is the first non-English block emitted. *)
Theorem C4_second_image_after_entry_at_index_1 (env : Env)
    (summary_texts_by_lang : dict) (images : list pystr) (out_path : pystr)
    (h : list event) (text : pystr) :
  py_or (dict_get (lit "english") summary_texts_by_lang)
        (dict_get (lit "en") summary_texts_by_lang) = Some text ->
  exists doc evs saved english pic1 entries evs1 evs2,
    create_pdf env summary_texts_by_lang images out_path h =
      (saved, h ++ evs ++ [EvSave out_path doc saved])
    /\ doc = english ++ pic1 ++ entries
    /\ evs = evs1 ++ evs2
    /\ text_block (lit "English Summary") text english
    /\ slot_picture false (images !! 0%nat) evs1 pic1
    /\ entries_laid images 0 summary_texts_by_lang evs2 entries.
Proof.
  intros Heng.
  destruct (render_structure env summary_texts_by_lang images h text Heng)
    as (st & english & pic1 & entries & evs1 & evs2
        & Hrender & Hcanvas & Henglish & Hpic1 & Hentries).
  exists (canvas st), (evs1 ++ evs2),
    (canvas_save env (h ++ evs1 ++ evs2) out_path (canvas st)),
    english, pic1, entries, evs1, evs2.
  split; [by apply create_pdf_runs | done].
Qed.

Lemma C4_second_image_after_entry_at_index_1_witness :
  py_or (dict_get (lit "english") sample_digests)
        (dict_get (lit "en") sample_digests) = Some (lit "Stocks rose.")
  /\ (exists doc evs saved english pic1 entries evs1 evs2,
        create_pdf (env_with_images (fun _ => fetch_by_url)) sample_digests
          [image_a; image_b] sample_pdf [] =
          (saved, [] ++ evs ++ [EvSave sample_pdf doc saved])
        /\ doc = english ++ pic1 ++ entries
        /\ evs = evs1 ++ evs2
        /\ text_block (lit "English Summary") (lit "Stocks rose.") english
        /\ slot_picture false ([image_a; image_b] !! 0%nat) evs1 pic1
        /\ entries_laid [image_a; image_b] 0 sample_digests evs2 entries)
  /\ saved_documents
       (snd (create_pdf (env_with_images (fun _ => fetch_by_url)) sample_digests
               [image_a; image_b] sample_pdf []))
     = [[setFont Helvetica_Bold 14; drawString 40 752 (lit "English Summary");
         setFont Helvetica 11; drawString 40 734 (lit "Stocks rose.");
         drawInlineImage (Thumbnail image_a) 40 400 500 300;
         setFont Helvetica_Bold 14; drawString 40 390 (lit "Arabic Summary");
         setFont Helvetica 11; drawString 40 372 (lit "[ar] Stocks rose.");
         showPage; drawInlineImage (Thumbnail image_b) 40 442 500 300;
         setFont Helvetica_Bold 14; drawString 40 432 (lit "Hindi Summary");
         setFont Helvetica 11; drawString 40 414 (lit "[hi] Stocks rose.");
         setFont Helvetica_Bold 14; drawString 40 390 (lit "Hebrew Summary");
         setFont Helvetica 11; drawString 40 372 (lit "[he] Stocks rose.")]].
Proof.
  split; [reflexivity|]. split; [|by vm_compute].
  apply (C4_second_image_after_entry_at_index_1
           (env_with_images (fun _ => fetch_by_url)) sample_digests
           [image_a; image_b] sample_pdf [] (lit "Stocks rose.")).
  reflexivity.
Defined.

(** C4 as claimed fails on the orchestrator's own map: with English
    first, the second image follows the Arabic block, which is the first
    non-English block emitted, not the second (the Hindi block). *)
Lemma C4_counterexample :
  outline <$> saved_documents
    (snd (create_pdf (env_with_images (fun _ => fetch_by_url)) sample_digests
            [image_a; image_b] sample_pdf []))
  = [[BlockTitle (lit "English Summary"); Picture (Thumbnail image_a);
      BlockTitle (lit "Arabic Summary"); Picture (Thumbnail image_b);
      BlockTitle (lit "Hindi Summary"); BlockTitle (lit "Hebrew Summary")]]
  /\ outline <$> saved_documents
       (snd (create_pdf (env_with_images (fun _ => fetch_by_url)) sample_digests
               [image_a; image_b] sample_pdf []))
     <> [[BlockTitle (lit "English Summary"); Picture (Thumbnail image_a);
          BlockTitle (lit "Arabic Summary"); BlockTitle (lit "Hindi Summary");
          Picture (Thumbnail image_b); BlockTitle (lit "Hebrew Summary")]].
Proof. split; [by vm_compute | vm_compute; congruence]. Qed.

(** ** Rendering twice *)

Lemma same_result_refl_pure {A} (o : outcome A) : same_result (lift o) (lift o).
Proof. by intros h1 h2. Qed.

Lemma same_result_ret {A} (a : A) : same_result (ret a) (ret a).
Proof. by intros h1 h2. Qed.

Lemma same_result_bind {A B} (m1 m2 : M A) (f1 f2 : A -> M B) :
  same_result m1 m2 -> (forall a, same_result (f1 a) (f2 a)) ->
  same_result (bind m1 f1) (bind m2 f2).
Proof.
  intros Hm Hf h1 h2. unfold bind. specialize (Hm h1 h2).
  destruct (m1 h1) as [[a1|e1] h1'], (m2 h2) as [[a2|e2] h2'];
    simpl in Hm; try done.
  - injection Hm as ->. apply Hf.
  - by injection Hm as ->.
Qed.

Lemma same_result_try_except {A} (m1 m2 : M A) (f1 f2 : exception -> M A) :
  same_result m1 m2 -> (forall e, same_result (f1 e) (f2 e)) ->
  same_result (try_except m1 f1) (try_except m2 f2).
Proof.
  intros Hm Hf h1 h2. unfold try_except. specialize (Hm h1 h2).
  destruct (m1 h1) as [[a1|e1] h1'], (m2 h2) as [[a2|e2] h2'];
    simpl in Hm; try done.
  injection Hm as ->. apply Hf.
Qed.

Lemma same_result_call {A} (ask1 ask2 : list event -> outcome A)
    (record1 record2 : outcome A -> event) :
  (forall h1 h2, ask1 h1 = ask2 h2) ->
  same_result (call ask1 record1) (call ask2 record2).
Proof. intros Hask h1 h2. unfold call. simpl. apply Hask. Qed.

Section SameDownloads.
Variables env1 env2 : Env.
Variable fetch : pystr -> outcome image_data.
Hypothesis Hfetch1 : steady_images env1 fetch.
Hypothesis Hfetch2 : steady_images env2 fetch.

Lemma same_downloads (url : pystr) (h1 h2 : list event) :
  image_get env1 h1 url = image_get env2 h2 url.
Proof. by rewrite Hfetch1, Hfetch2. Qed.

Lemma place_first_image_same (images : list pystr) (st : render_state) :
  same_result (place_first_image env1 images st) (place_first_image env2 images st).
Proof.
  unfold place_first_image. destruct (images !! 0%nat) as [url|];
    [|apply same_result_ret].
  apply same_result_try_except; [|intros; apply same_result_ret].
  apply same_result_bind; [|intros; apply same_result_ret].
  apply same_result_call. apply same_downloads.
Qed.

Lemma place_second_image_same (images : list pystr) (st : render_state) :
  same_result (place_second_image env1 images st) (place_second_image env2 images st).
Proof.
  unfold place_second_image. destruct (images !! 1%nat) as [url|];
    [|apply same_result_ret].
  apply same_result_try_except; [|intros; apply same_result_ret].
  apply same_result_bind; [|intros; apply same_result_ret].
  apply same_result_call. apply same_downloads.
Qed.

Lemma render_languages_same (images : list pystr) (items : list (pystr * pystr)) :
  forall (i : nat) (st : render_state),
  same_result (render_languages env1 images i items st)
              (render_languages env2 images i items st).
Proof.
  induction items as [|[lang text] rest IH]; intros i st.
  - apply same_result_ret.
  - rewrite !render_languages_cons. destruct (is_english lang); [apply IH|].
    apply same_result_bind; [apply same_result_refl_pure|]. intros st1.
    apply same_result_bind; [|intros; apply IH].
    destruct ((i =? 1)%nat && (1 <? length images)%nat);
      [apply place_second_image_same | apply same_result_ret].
Qed.

(** The cursor and the canvas calls depend on the map, the images and
    the downloads, and on nothing else. *)
Lemma render_same (summary_texts_by_lang : dict) (images : list pystr) :
  same_result (render env1 summary_texts_by_lang images)
              (render env2 summary_texts_by_lang images).
Proof.
  unfold render.
  apply same_result_bind; [apply same_result_refl_pure|]. intros st0.
  apply same_result_bind; [apply place_first_image_same|]. intros st1.
  apply render_languages_same.
Qed.
End SameDownloads.

Lemma saved_documents_app (tr1 tr2 : list event) :
  saved_documents (tr1 ++ tr2) = saved_documents tr1 ++ saved_documents tr2.
Proof. unfold saved_documents. apply omap_app. Qed.

Lemma saved_documents_downloads (evs : list event) :
  Forall (fun ev => is_image_get ev = true) evs -> saved_documents evs = [].
Proof.
  induction 1 as [|ev evs Hev _ IH]; [done|].
  destruct ev; done.
Qed.

(** What [create_pdf] adds to the trace and which document it saves:
    the canvas of [render], or nothing when the English lookup fails. *)
Lemma create_pdf_documents (env : Env) (summary_texts_by_lang : dict)
    (images : list pystr) (out_path : pystr) (h : list event) :
  exists evs,
    snd (create_pdf env summary_texts_by_lang images out_path h) = h ++ evs
    /\ saved_documents evs =
         match fst (render env summary_texts_by_lang images h) with
         | Val st => [canvas st]
         | Raise _ => []
         end.
Proof.
  destruct (py_or (dict_get (lit "english") summary_texts_by_lang)
                  (dict_get (lit "en") summary_texts_by_lang)) as [text|] eqn:Heng.
  - destruct (render_runs env (fun _ => Raise connection_refused)
                summary_texts_by_lang images h text Heng)
      as (st0 & st & evs & ops & _ & Hrender & Hevs & _ & _).
    rewrite (create_pdf_runs _ _ _ out_path _ _ _ Hrender), Hrender. simpl.
    eexists. split; [done|].
    by rewrite saved_documents_app, (saved_documents_downloads evs Hevs).
  - exists []. unfold create_pdf, render. rewrite Heng, app_nil_r. done.
Qed.




(** ** The publisher *)

Lemma send_to_telegram_unconfigured (env : Env) (pdf_path caption : pystr)
    (h : list event) :
  credentials_present env = false ->
  send_to_telegram env pdf_path caption h = (Val false, h).
Proof.
  unfold credentials_present, send_to_telegram. intros Hcred.
  destruct (truthy (TELEGRAM_BOT_TOKEN env)), (truthy (TELEGRAM_CHANNEL_ID env)); done.
Qed.

Lemma send_to_telegram_configured (env : Env) (pdf_path caption : pystr)
    (h : list event) :
  credentials_present env = true ->
  send_to_telegram env pdf_path caption h =
    match open_rb env h pdf_path with
    | Raise e => (Raise e, h ++ [EvOpen pdf_path (Raise e)])
    | Val u =>
        let h1 := h ++ [EvOpen pdf_path (Val u)] in
        let posted := telegram_post env h1 pdf_path caption in
        (match posted with
         | Val status_code => Val (status_code =? 200)
         | Raise e => Raise e
         end,
         h1 ++ [EvTelegramPost pdf_path caption posted])
    end.
Proof.
  unfold credentials_present, send_to_telegram. intros Hcred.
  destruct (truthy (TELEGRAM_BOT_TOKEN env)), (truthy (TELEGRAM_CHANNEL_ID env));
    try done. simpl. unfold bind, call, ret.
  destruct (open_rb env h pdf_path) as [u|e]; [|done].
  destruct (telegram_post env _ pdf_path caption) as [status_code|e]; [|done].
  by destruct (status_code =? 200).
Qed.

(** C6: without credentials the publisher returns [False] and does
    nothing.  With credentials it first opens the document: if that
    raises, the exception leaves the call and no delivery is attempted;
    if the file opens, exactly one delivery attempt is made, and the
    call returns [True] exactly when the endpoint answers with status
    200: it returns [False] on any other status, and a transport
    failure of the upload leaves the call as that exception. *)
Theorem C6_send_to_telegram (env : Env) (pdf_path caption : pystr)
    (h : list event) :
  exists evs,
    snd (send_to_telegram env pdf_path caption h) = h ++ evs
    /\ (credentials_present env = false ->
        fst (send_to_telegram env pdf_path caption h) = Val false /\ evs = [])
    /\ (forall e,
          credentials_present env = true -> open_rb env h pdf_path = Raise e ->
          fst (send_to_telegram env pdf_path caption h) = Raise e
          /\ count_events is_delivery evs = 0%nat)
    /\ (forall u,
          credentials_present env = true -> open_rb env h pdf_path = Val u ->
          count_events is_delivery evs = 1%nat
          /\ (fst (send_to_telegram env pdf_path caption h) = Val true <->
              telegram_post env (h ++ [EvOpen pdf_path (Val u)]) pdf_path caption
                = Val 200)
          /\ (forall status_code,
                telegram_post env (h ++ [EvOpen pdf_path (Val u)]) pdf_path caption
                  = Val status_code ->
                fst (send_to_telegram env pdf_path caption h)
                  = Val (status_code =? 200))
          /\ (forall e,
                telegram_post env (h ++ [EvOpen pdf_path (Val u)]) pdf_path caption
                  = Raise e ->
                fst (send_to_telegram env pdf_path caption h) = Raise e)).
Proof.
  destruct (credentials_present env) eqn:Hcred.
  - rewrite (send_to_telegram_configured env pdf_path caption h Hcred).
    destruct (open_rb env h pdf_path) as [u|e] eqn:Hopen.
    + eexists. simpl. split; [by rewrite <- app_assoc|].
      split; [done|]. split; [done|].
      intros u' _ [= <-]. split; [done|].
      destruct (telegram_post env _ pdf_path caption) as [status_code|e].
      * split; [|split; [by intros ? [= <-] | done]].
        destruct (Z.eqb_spec status_code 200) as [->|Hne]; [done|].
        split; [done|]. by intros [= ->].
      * split; [done|]. split; [done | by intros ? [= <-]].
    + eexists. simpl. split; [done|]. split; [done|]. split; [|done].
      by intros e' _ [= <-].
  - rewrite (send_to_telegram_unconfigured env pdf_path caption h Hcred).
    exists []. simpl. rewrite app_nil_r. done.
Qed.

Lemma C6_send_to_telegram_witness :
  credentials_present (env_delivering (Val 200)) = true
  /\ open_rb (env_delivering (Val 200)) [] sample_pdf = Val tt
  /\ (exists evs,
        snd (send_to_telegram (env_delivering (Val 200)) sample_pdf (lit "caption") [])
          = [] ++ evs
        /\ count_events is_delivery evs = 1%nat
        /\ fst (send_to_telegram (env_delivering (Val 200)) sample_pdf (lit "caption") [])
             = Val true)
  /\ credentials_present (env_delivering (Raise connection_refused)) = true
  /\ open_rb (env_delivering (Raise connection_refused)) [] sample_pdf = Val tt
  /\ fst (send_to_telegram (env_delivering (Raise connection_refused)) sample_pdf
            (lit "caption") []) = Raise connection_refused.
Proof.
  split; [reflexivity|]. split; [reflexivity|]. split.
  { destruct (C6_send_to_telegram (env_delivering (Val 200)) sample_pdf (lit "caption") [])
      as (evs & Htrace & _ & _ & Hopened).
    exists evs. split; [exact Htrace|].
    destruct (Hopened tt eq_refl eq_refl) as (Hone & Hiff & _).
    split; [exact Hone | apply Hiff; reflexivity]. }
  split; [reflexivity|]. split; [reflexivity|].
  destruct (C6_send_to_telegram (env_delivering (Raise connection_refused)) sample_pdf
              (lit "caption") []) as (evs & _ & _ & _ & Hopened).
  destruct (Hopened tt eq_refl eq_refl) as (_ & _ & _ & Hraise).
  exact (Hraise connection_refused eq_refl).
Defined.

(** C6 as claimed fails when the document cannot be opened: credentials
    are present, yet no delivery attempt is made and the call raises. *)
Lemma C6_counterexample :
  credentials_present env_missing_file = true
  /\ count_events is_delivery
       (snd (send_to_telegram env_missing_file sample_pdf (lit "caption") [])) = 0%nat
  /\ fst (send_to_telegram env_missing_file sample_pdf (lit "caption") [])
     = Raise (ExternalError (lit "[Errno 2] No such file or directory")).
Proof. by vm_compute. Qed.

(** ** Totality of the renderer *)

Lemma english_lookup_Some (d : dict) :
  english_entry_usable d ->
  exists text, py_or (dict_get (lit "english") d) (dict_get (lit "en") d) = Some text.
Proof.
  unfold py_or. intros [(text & -> & Ht) | [text Hen]].
  - exists text. simpl. by rewrite Ht.
  - destruct (truthy_opt (dict_get (lit "english") d)) eqn:Ht; [|by exists text].
    destruct (dict_get (lit "english") d) as [t|]; [by exists t | done].
Qed.

Lemma english_lookup_None (d : dict) :
  ~ english_entry_usable d ->
  py_or (dict_get (lit "english") d) (dict_get (lit "en") d) = None.
Proof.
  unfold py_or, english_entry_usable. intros Hno.
  destruct (dict_get (lit "english") d) as [t|] eqn:Heng; simpl.
  - destruct (truthy t) eqn:Ht; [exfalso; apply Hno; left; by exists t|].
    destruct (dict_get (lit "en") d) eqn:Hen; [|done].
    exfalso. apply Hno. by right.
  - destruct (dict_get (lit "en") d) eqn:Hen; [|done].
    exfalso. apply Hno. by right.
Qed.

Lemma dict_get_set (k k' v : pystr) (d : dict) :
  dict_get k (dict_set k' v d) = if decide (k = k') then Some v else dict_get k d.
Proof.
  induction d as [|[k0 v0] d IH]; simpl.
  - by destruct (decide (k = k')).
  - destruct (decide (k' = k0)) as [->|Hne]; simpl.
    + by destruct (decide (k = k0)).
    + rewrite IH. destruct (decide (k = k0)) as [->|]; [|done].
      by rewrite decide_False.
Qed.

Lemma translate_all_runs (env : Env) (summary_en : pystr) (langs : list pystr) :
  forall (translations : dict) (h : list event),
  exists translations' evs,
    translate_all env summary_en langs translations h = (Val translations', h ++ evs)
    /\ (forall k, k ∉ langs -> dict_get k translations' = dict_get k translations).
Proof.
  induction langs as [|lang rest IH]; intros translations h; simpl.
  - exists translations, []. by rewrite app_nil_r.
  - unfold translating_agent_translate.
    destruct (litellm_generate_trace env (translation_prompt summary_en lang) 800 h)
      as (out & evs1 & Hrun & _ & _).
    destruct (IH (dict_set lang out translations)
                 ((h ++ EvGenerate (translation_prompt summary_en lang) 800 :: evs1)
                  ++ [EvSleep]))
      as (translations' & evs2 & Hrest & Hkeep).
    exists translations',
      ((EvGenerate (translation_prompt summary_en lang) 800 :: evs1) ++ [EvSleep] ++ evs2).
    split.
    + unfold bind at 1. rewrite Hrun. unfold bind at 1, emit at 1.
      rewrite Hrest. by rewrite <- !app_assoc.
    + intros k Hk. apply not_elem_of_cons in Hk as [Hne Hk].
      rewrite (Hkeep k Hk), dict_get_set. by rewrite decide_False.
Qed.

(** The map the orchestrator hands to the renderer, lines 279-287. *)
Lemma flow_translations_usable (env : Env) (results : list NewsItem)
    (h : list event) :
  results <> [] ->
  exists summary_en evs1 translations evs2,
    summary_agent_generate env results h = (Val summary_en, h ++ evs1)
    /\ translate_all env summary_en target_languages
         (dict_set (lit "english") summary_en []) (h ++ evs1)
       = (Val translations, (h ++ evs1) ++ evs2)
    /\ dict_get (lit "english") translations = Some summary_en
    /\ truthy summary_en = true.
Proof.
  intros Hne. destruct results as [|r rest]; [done|]. unfold summary_agent_generate.
  destruct (litellm_generate_trace env (summary_prompt (r :: rest)) 600 h)
    as (summary_en & evs1 & Hrun & Htruthy & _).
  destruct (translate_all_runs env summary_en target_languages
              (dict_set (lit "english") summary_en [])
              (h ++ EvGenerate (summary_prompt (r :: rest)) 600 :: evs1))
    as (translations & evs2 & Htrans & Hkeep).
  exists summary_en, (EvGenerate (summary_prompt (r :: rest)) 600 :: evs1),
    translations, evs2.
  split; [done|]. split; [done|]. split; [|done].
  rewrite Hkeep; [by rewrite dict_get_set, decide_True|].
  unfold target_languages. rewrite !not_elem_of_cons.
  repeat split; try (by vm_compute); apply not_elem_of_nil.
Qed.




(** ** The orchestrator *)

Lemma flow_stages_runs (env : Env) (results : list NewsItem) (h : list event) :
  results <> [] ->
  exists o evs, flow_stages env results h = (o, h ++ evs) /\ stages_end o evs.
Proof.
  intros Hne.
  destruct (flow_translations_usable env results h Hne)
    as (summary_en & evs1 & translations & evs2 & Hsum & Htrans & Heng & Ht).
  set (h2 := (h ++ evs1) ++ evs2) in *.
  set (date := now_date env h2).
  set (h3 := h2 ++ [EvNow date]).
  set (out_pdf := lit "daily_summary_" ++ date ++ lit ".pdf").
  set (images := select_images_from_results results 2).
  assert (Hlookup : py_or (dict_get (lit "english") translations)
                          (dict_get (lit "en") translations) = Some summary_en).
  { rewrite Heng. unfold py_or. simpl. by rewrite Ht. }
  destruct (render_runs env (fun _ => Raise connection_refused)
              translations images h3 summary_en Hlookup)
    as (block & st & evs3 & rest & _ & Hrender & _ & _ & _).
  pose proof (create_pdf_runs env translations images out_pdf h3 st evs3 Hrender)
    as Hpdf. simpl in Hpdf.
  set (saved := canvas_save env (h3 ++ evs3) out_pdf (canvas st)) in *.
  set (h4 := h3 ++ evs3 ++ [EvSave out_pdf (canvas st) saved]) in *.
  assert (Hh4 : h4 = h ++ (evs1 ++ evs2 ++ [EvNow date] ++ evs3)
                       ++ [EvSave out_pdf (canvas st) saved]).
  { unfold h4, h3, h2. by rewrite <- !app_assoc. }
  assert (Hprefix : flow_stages env results h =
    match saved with
    | Val _ =>
        (let* sent := send_to_telegram env out_pdf (lit "Daily Market Summary - " ++ date) in
         ret true) h4
    | Raise e => (Raise e, h4)
    end).
  { unfold flow_stages. unfold bind at 1. rewrite Hsum.
    unfold bind at 1. fold images. rewrite Htrans. fold h2.
    unfold bind at 1. unfold today_string at 1. fold date h3 out_pdf.
    unfold bind at 1. rewrite Hpdf. by destruct saved. }
  rewrite Hprefix. destruct saved as [u|e] eqn:Hsaved.
  - destruct (credentials_present env) eqn:Hcred.
    + unfold bind.
      rewrite (send_to_telegram_configured env out_pdf _ h4 Hcred).
      destruct (open_rb env h4 out_pdf) as [u'|e].
      * simpl. destruct (telegram_post env _ out_pdf _) as [status_code|e] eqn:Hpost.
        -- eexists _, _. split; [by rewrite Hh4, <- !app_assoc|].
           split; [done|].
           exists (EvTelegramPost out_pdf (lit "Daily Market Summary - " ++ date)
                     (Val status_code)).
           split; [rewrite !app_assoc; apply last_snoc | done].
        -- eexists _, _. split; [by rewrite Hh4, <- !app_assoc|].
           eexists. split; [rewrite !app_assoc; apply last_snoc | done].
      * eexists _, _. split; [by rewrite Hh4, <- !app_assoc|].
        eexists. split; [rewrite !app_assoc; apply last_snoc | done].
    + unfold bind.
      rewrite (send_to_telegram_unconfigured env out_pdf _ h4 Hcred).
      eexists _, _. split; [by rewrite Hh4|]. split; [done|].
      eexists. split; [apply last_snoc | done].
  - eexists _, _. split; [by rewrite Hh4|].
    eexists. split; [apply last_snoc | done].
Qed.

(** C7: when ingestion ends with an empty result set, the run returns
    [False] and nothing happens after the search calls: no invocation of
    the generation capability (so no summary and no translation), no
    document saved, no delivery attempt. *)
Theorem C7_no_results_no_later_stage (env : Env) (h : list event) :
  fst (search_agent_us_financial_news env h) = Val [] ->
  exists evs,
    crewai_flow_run env h = (Val false, h ++ evs)
    /\ Forall (fun ev => is_search ev = true) evs
    /\ count_events is_generate evs = 0%nat
    /\ saved_documents evs = []
    /\ count_events is_delivery evs = 0%nat.
Proof.
  intros Hempty.
  destruct (search_agent_trace env h) as (results & evs & Hrun & Hall).
  rewrite Hrun in Hempty. simpl in Hempty. injection Hempty as ->.
  exists evs. split; [|split; [done|split; [|split]]].
  - unfold crewai_flow_run, try_except, flow_body, bind. by rewrite Hrun.
  - apply (count_events_none is_generate is_search evs Hall). by intros [].
  - clear Hrun. induction Hall as [|ev evs Hev _ IH]; [done|]. by destruct ev.
  - apply (count_events_none is_delivery is_search evs Hall). by intros [].
Qed.

Lemma C7_no_results_no_later_stage_witness :
  fst (search_agent_us_financial_news env_no_news []) = Val []
  /\ exists evs,
       crewai_flow_run env_no_news [] = (Val false, [] ++ evs)
       /\ Forall (fun ev => is_search ev = true) evs
       /\ count_events is_generate evs = 0%nat
       /\ saved_documents evs = []
       /\ count_events is_delivery evs = 0%nat.
Proof.
  split; [reflexivity|].
  apply (C7_no_results_no_later_stage env_no_news []). reflexivity.
Defined.



(** The run still reports success when the publisher returns [False]:
    on a non-success status, and without any credentials. *)
Example run_succeeds_on_delivery_refusal :
  fst (crewai_flow_run (env_delivering (Val 403)) []) = Val true.
Proof. by vm_compute. Qed.

Example run_succeeds_unconfigured :
  fst (crewai_flow_run env_unconfigured []) = Val true
  /\ count_events is_delivery (snd (crewai_flow_run env_unconfigured [])) = 0%nat
  /\ count_events is_generate (snd (crewai_flow_run env_unconfigured [])) = 4%nat.
Proof. by vm_compute. Qed.

Lemma C3_ingestion_deduplicates_witness :
  fst (search_tavily env_two_feeds search_query 5 []) = Val first_feed
  /\ fst (search_serper env_two_feeds search_query 5
            (snd (search_tavily env_two_feeds search_query 5 []))) = Val second_feed
  /\ fst (search_agent_us_financial_news env_two_feeds []) =
       Val [feed_item "Fed holds rates" "https://example.com/fed";
            feed_item "Oil slips" "https://example.com/oil";
            feed_item "Tech rallies" "https://example.com/tech"]
  /\ let key := fun r : NewsItem =>
                  match link r with
                  | Some (c :: s) => Some (c :: s)
                  | Some [] => title r
                  | None => title r
                  end in
     exists merged,
       fst (search_agent_us_financial_news env_two_feeds []) = Val merged
       /\ NoDup (key <$> merged)
       /\ (forall r, r ∈ first_feed ++ second_feed ->
             exists r', r' ∈ merged /\ key r' = key r)
       /\ (forall r', r' ∈ merged ->
             find (fun x => bool_decide (key x = key r'))
               (first_feed ++ second_feed) = Some r')
       /\ merged `sublist_of` (first_feed ++ second_feed).
Proof.
  split; [reflexivity|]. split; [reflexivity|]. split; [by vm_compute|].
  apply (C3_ingestion_deduplicates env_two_feeds [] first_feed second_feed);
    reflexivity.
Defined.

Example two_feeds_merged :
  fst (search_agent_us_financial_news env_two_feeds []) =
    Val [feed_item "Fed holds rates" "https://example.com/fed";
         feed_item "Oil slips" "https://example.com/oil";
         feed_item "Tech rallies" "https://example.com/tech"].
Proof. by vm_compute. Qed.

Lemma C8_summary_agent_generate_witness :
  [mock_result] <> []
  /\ exists out evs,
       summary_agent_generate env_unconfigured [mock_result] [] = (Val out, [] ++ evs)
       /\ count_events is_generate evs = 1%nat
       /\ head evs = Some (EvGenerate (summary_prompt (take 6 [mock_result])) 600)
       /\ length (context_lines [mock_result]) = Nat.min 6 (length [mock_result]).
Proof.
  assert (Hne : [mock_result] <> []) by discriminate.
  split; [exact Hne|].
  exact (proj2 (C8_summary_agent_generate env_unconfigured []) [mock_result] Hne).
Defined.

Lemma C9_litellm_generate_never_raises_witness :
  truthy (LITELLM_API_KEY env_llm_down) = true
  /\ llm_post env_llm_down ([] ++ [EvGenerate (lit "Summarize.") 600])
       (lit "Summarize.") 600 = Raise connection_refused
  /\ fst (litellm_generate env_llm_down (lit "Summarize.") 600 []) =
       Val (lit "[LLM_ERROR] " ++ str_of_exception connection_refused).
Proof.
  split; [reflexivity|]. split; [reflexivity|].
  exact (proj2 (proj2 (C9_litellm_generate_never_raises env_llm_down
           (lit "Summarize.") 600 [])) connection_refused eq_refl eq_refl).
Defined.

Example mock_echo :
  fst (litellm_generate env_unconfigured (lit "Summarize.") 600 []) =
    Val (lit "[MOCK LLM RESPONSE] Summarize....").
Proof. by vm_compute. Qed.

(* ===================================================================== *)
(** * Further properties of the pipeline *)
(* ===================================================================== *)

(** ** Deduplication, beyond the merge of two lists *)

Lemma first_seen_distinct (seen : gset (option pystr)) (results : list NewsItem) :
  NoDup (dedupe_key <$> results) ->
  (forall r, r ∈ results -> dedupe_key r ∉ seen) ->
  first_seen seen results = results.
Proof.
  revert seen. induction results as [|x rest IH]; intros seen Hnodup Hnew; [done|].
  rewrite fmap_cons in Hnodup. apply NoDup_cons in Hnodup as [Hx Hrest].
  simpl. rewrite bool_decide_eq_false_2 by (apply Hnew, elem_of_cons; by left).
  f_equal. apply IH; [done|]. intros r Hr Hin.
  apply elem_of_union in Hin as [Heq%elem_of_singleton | Hin].
  - apply Hx. rewrite <- Heq. by apply list_elem_of_fmap_2.
  - apply (Hnew r); [apply elem_of_cons; by right | done].
Qed.

Lemma dedupe_distinct (results : list NewsItem) :
  NoDup (dedupe_key <$> results) -> dedupe results = results.
Proof.
  intros Hnodup. rewrite dedupe_first_seen. apply first_seen_distinct; [done|].
  intros r _. apply not_elem_of_empty.
Qed.

(** The dedupe loop of lines 118-125 is idempotent and never lengthens
    the list: running it on its own output changes nothing. *)
Theorem dedupe_idempotent (results : list NewsItem) :
  dedupe (dedupe results) = dedupe results
  /\ (length (dedupe results) <= length results)%nat.
Proof.
  split.
  - apply dedupe_distinct. rewrite dedupe_first_seen. apply first_seen_keys_NoDup.
  - rewrite dedupe_first_seen. apply sublist_length, first_seen_sublist.
Qed.

(** A result list whose keys are pairwise distinct passes through the
    dedupe loop unchanged: nothing is dropped or reordered. *)
Theorem dedupe_keeps_distinct_results (results : list NewsItem) :
  NoDup (dedupe_key <$> results) -> dedupe results = results.
Proof. apply dedupe_distinct. Qed.

Lemma dedupe_keeps_distinct_results_witness :
  NoDup (dedupe_key <$> first_feed) /\ dedupe first_feed = first_feed.
Proof.
  assert (Hnodup : NoDup (dedupe_key <$> first_feed)).
  { apply (bool_decide_unpack _). by vm_compute. }
  split; [exact Hnodup | exact (dedupe_keeps_distinct_results first_feed Hnodup)].
Defined.

(** ** The image selector, for every quota *)

Lemma lit_inj (s1 s2 : string) : lit s1 = lit s2 -> s1 = s2.
Proof.
  unfold lit. intros Heq.
  assert (Hchars : list_ascii_of_string s1 = list_ascii_of_string s2).
  { revert Heq. generalize (list_ascii_of_string s1) (list_ascii_of_string s2).
    induction l as [|a l IH]; intros [|b l']; simpl; try done.
    intros [= Hab Hrest]. f_equal; [|by apply IH].
    by rewrite <- (ascii_N_embedding a), <- (ascii_N_embedding b), Hab. }
  by rewrite <- (string_of_list_ascii_of_string s1),
             <- (string_of_list_ascii_of_string s2), Hchars.
Qed.

Lemma placeholder_inj (n m : nat) : placeholder n = placeholder m -> n = m.
Proof.
  unfold placeholder, str_of_nat. intros Heq%app_inv_head%lit_inj.
  apply (inj pretty) in Heq. lia.
Qed.

Lemma placeholders_NoDup (start len : nat) :
  NoDup (map placeholder (seq start len)).
Proof.
  revert start. induction len as [|len IH]; intros start; simpl; [constructor|].
  constructor; [|apply IH].
  intros Hin%list_elem_of_In%in_map_iff. destruct Hin as (m & Heq%placeholder_inj & Hm).
  apply in_seq in Hm. lia.
Qed.

(** With a quota of at least one, [select_images_from_results] returns
    exactly [max_images] URLs: the first [max_images] truthy images of
    the results, in order, followed by placeholders that are numbered
    from the fill count + 1 and are pairwise distinct. *)
Theorem select_images_fills_quota (results : list NewsItem) (max_images : Z) :
  1 <= max_images ->
  let real := take (Z.to_nat max_images) (omap real_image results) in
  let fill := map placeholder (seq (length real) (Z.to_nat max_images - length real)) in
  select_images_from_results results max_images = real ++ fill
  /\ length (select_images_from_results results max_images) = Z.to_nat max_images
  /\ NoDup fill.
Proof.
  intros Hk real fill.
  destruct (select_images_positive_quota results max_images Hk) as [Heq Hlen].
  split; [exact Heq|]. split; [exact Hlen | apply placeholders_NoDup].
Qed.

Lemma select_images_fills_quota_witness :
  1 <= 2
  /\ select_images_from_results [item_with_image "https://example.com/a.png"] 2
     = [lit "https://example.com/a.png";
        lit "https://via.placeholder.com/800x400.png?text=Financial+Chart+2"].
Proof.
  split; [lia|].
  exact (proj1 (select_images_fills_quota
                  [item_with_image "https://example.com/a.png"] 2 ltac:(lia))).
Defined.

(** With a quota of zero or less the loops misfire: no placeholder is
    added, and the result is the truthy image of the first result if it
    has one, else the empty list; later results are never looked at. *)
Theorem select_images_nonpositive_quota (results : list NewsItem) (max_images : Z) :
  max_images <= 0 ->
  select_images_from_results results max_images =
    match results with
    | [] => []
    | r :: _ => match real_image r with Some img => [img] | None => [] end
    end.
Proof.
  intros Hk. unfold select_images_from_results.
  assert (Hcollect : collect_images results [] max_images =
    match results with
    | [] => []
    | r :: _ => match real_image r with Some img => [img] | None => [] end
    end).
  { destruct results as [|r rest]; [done|]. simpl. unfold real_image.
    destruct (image r) as [img|]; [destruct (truthy img)|];
      match goal with
      | |- context [?a >=? ?b] => destruct (Z.geb_spec a b)
      end; first [done | simpl in *; lia]. }
  rewrite Hcollect.
  replace (Z.to_nat _) with 0%nat; [done|].
  destruct results as [|r rest]; [simpl; lia|].
  destruct (real_image r); simpl; lia.
Qed.

Lemma select_images_nonpositive_quota_witness :
  -1 <= 0
  /\ select_images_from_results
       [item_with_image "https://example.com/a.png";
        item_with_image "https://example.com/b.png"] (-1)
     = [lit "https://example.com/a.png"].
Proof.
  split; [lia|].
  exact (select_images_nonpositive_quota
           [item_with_image "https://example.com/a.png";
            item_with_image "https://example.com/b.png"] (-1) ltac:(lia)).
Defined.

(** ** The search providers and the search agent *)

Lemma search_serper_unconfigured (env : Env) (query : pystr) (n : nat)
    (h : list event) :
  truthy (SERPER_API_KEY env) = false ->
  search_serper env query n h = (Val [mock_result], h).
Proof. unfold search_serper. by intros ->. Qed.

Lemma search_serper_configured (env : Env) (query : pystr) (n : nat)
    (h : list event) :
  truthy (SERPER_API_KEY env) = true ->
  search_serper env query n h =
    (match serper_post env h query n with
     | Val organic => Val (map serper_item (take n organic))
     | Raise e => Raise e
     end,
     h ++ [EvSerperPost query n (serper_post env h query n)]).
Proof.
  unfold search_serper. intros ->. simpl. unfold bind, call, ret.
  by destruct (serper_post env h query n).
Qed.

(** An item as the pipeline wants it: its image is [None] or a non-empty
    string, never the empty string. *)
Lemma serper_item_image (item : NewsItem) :
  image (serper_item item) = None \/ truthy_opt (image (serper_item item)) = true.
Proof.
  unfold serper_item, py_or. simpl.
  destruct (truthy_opt (image item)) eqn:Ht; [by right | by left].
Qed.

(** [search_serper] makes one search request when the key is set and
    none otherwise.  When it returns, every item has an image that is
    [None] or non-empty; with the key set there are at most
    [num_results] items, without it there is the single mock item
    whatever [num_results] is. *)
Theorem search_serper_contract (env : Env) (query : pystr) (n : nat)
    (h : list event) :
  exists evs,
    snd (search_serper env query n h) = h ++ evs
    /\ Forall (fun ev => is_search ev = true) evs
    /\ length evs = (if truthy (SERPER_API_KEY env) then 1 else 0)%nat
    /\ forall items,
         fst (search_serper env query n h) = Val items ->
         Forall (fun r => image r = None \/ truthy_opt (image r) = true) items
         /\ (if truthy (SERPER_API_KEY env)
             then (length items <= n)%nat else items = [mock_result]).
Proof.
  destruct (truthy (SERPER_API_KEY env)) eqn:Hkey.
  - rewrite (search_serper_configured env query n h Hkey).
    exists [EvSerperPost query n (serper_post env h query n)].
    split; [done|]. split; [by repeat constructor|]. split; [done|].
    intros items. simpl. destruct (serper_post env h query n) as [organic|e]; [|done].
    intros [= <-]. split.
    + apply Forall_forall. intros r Hr%list_elem_of_In%in_map_iff.
      destruct Hr as (item & <- & _). apply serper_item_image.
    + rewrite length_map, length_take. lia.
  - rewrite (search_serper_unconfigured env query n h Hkey).
    exists []. rewrite app_nil_r. split; [done|]. split; [done|]. split; [done|].
    intros items [= <-]. split; [|done]. constructor; [by right | constructor].
Qed.

Lemma search_serper_contract_witness :
  fst (search_serper env_two_feeds search_query 1 []) = Val (take 1 first_feed)
  /\ (length (take 1 first_feed) <= 1)%nat.
Proof.
  split; [reflexivity|].
  destruct (search_serper_contract env_two_feeds search_query 1 [])
    as (evs & _ & _ & _ & Hitems).
  exact (proj2 (Hitems (take 1 first_feed) eq_refl)).
Defined.

Lemma contribution_length (env : Env) (query : pystr) (n : nat) (h : list event) :
  truthy (SERPER_API_KEY env) = true ->
  (length (contribution (fst (search_serper env query n h))) <= n)%nat.
Proof.
  intros Hkey. rewrite (search_serper_configured env query n h Hkey). simpl.
  destruct (serper_post env h query n) as [organic|e]; simpl; [|lia].
  rewrite length_map, length_take. lia.
Qed.

Lemma search_agent_shape (env : Env) (h : list event) :
  exists results evs,
    search_agent_us_financial_news env h = (Val results, h ++ evs)
    /\ Forall (fun ev => is_search ev = true) evs
    /\ results =
         dedupe (contribution (fst (search_serper env search_query 5 h))
                 ++ contribution
                      (fst (search_serper env search_query 5
                              (snd (search_serper env search_query 5 h)))))
    /\ (if truthy (SERPER_API_KEY env)
        then length evs = 2%nat /\ (length results <= 10)%nat
        else evs = [] /\ results = [mock_result]).
Proof.
  pose proof (search_agent_merges env h) as Hrun. simpl in Hrun.
  assert (Htavily : forall h', search_tavily env search_query 5 h'
                               = search_serper env search_query 5 h').
  { intros h'. unfold search_tavily. by destruct (negb _). }
  rewrite Htavily in Hrun. rewrite Hrun.
  destruct (truthy (SERPER_API_KEY env)) eqn:Hkey.
  - pose proof (contribution_length env search_query 5 h Hkey) as Hlen1.
    pose proof (contribution_length env search_query 5
                  (snd (search_serper env search_query 5 h)) Hkey) as Hlen2.
    assert (Htrace : forall h',
      snd (search_serper env search_query 5 h') =
        h' ++ [EvSerperPost search_query 5 (serper_post env h' search_query 5)])
      by (intros h'; by rewrite (search_serper_configured env search_query 5 h' Hkey)).
    eexists.
    exists [EvSerperPost search_query 5 (serper_post env h search_query 5);
            EvSerperPost search_query 5
              (serper_post env (snd (search_serper env search_query 5 h))
                 search_query 5)].
    split; [f_equal; rewrite (Htrace (snd _)), (Htrace h); by rewrite <- app_assoc|].
    split; [by repeat constructor|]. split; [done|]. split; [done|].
    etrans; [apply sublist_length; rewrite dedupe_first_seen; apply first_seen_sublist|].
    rewrite length_app. lia.
  - rewrite !(search_serper_unconfigured env search_query 5 _ Hkey). simpl.
    exists [mock_result], []. rewrite app_nil_r. by repeat split.
Qed.

(** The search agent never raises.  Both of its provider calls go to
    Serper: the Tavily key changes nothing.  With the Serper key set it
    makes exactly two search requests and returns at most 10 items;
    without the key it makes no request and returns the single mock
    item, the second mock copy being dropped as a duplicate. *)
Theorem search_agent_two_serper_calls (env : Env) (h : list event) :
  exists results evs,
    search_agent_us_financial_news env h = (Val results, h ++ evs)
    /\ Forall (fun ev => is_search ev = true) evs
    /\ results =
         dedupe (contribution (fst (search_serper env search_query 5 h))
                 ++ contribution
                      (fst (search_serper env search_query 5
                              (snd (search_serper env search_query 5 h)))))
    /\ (if truthy (SERPER_API_KEY env)
        then length evs = 2%nat /\ (length results <= 10)%nat
        else evs = [] /\ results = [mock_result]).
Proof. apply search_agent_shape. Qed.

(** ** The generation capability, its answers and its requests *)

Lemma litellm_generate_requests (env : Env) (prompt : pystr) (max_tokens : Z)
    (h : list event) :
  exists out evs,
    litellm_generate env prompt max_tokens h =
      (Val out, h ++ EvGenerate prompt max_tokens :: evs)
    /\ truthy out = true
    /\ Forall (fun ev => is_llm_post ev = true) evs
    /\ length evs = (if truthy (LITELLM_API_KEY env) then 1 else 0)%nat
    /\ out = generated_text_of env prompt
               (llm_post env (h ++ [EvGenerate prompt max_tokens]) prompt max_tokens).
Proof.
  pose proof (litellm_generate_runs env prompt max_tokens h) as Hrun. simpl in Hrun.
  eexists. destruct (truthy (LITELLM_API_KEY env)) eqn:Hkey; simpl in Hrun.
  - eexists [EvLLMPost prompt max_tokens _]. rewrite Hrun, <- app_assoc.
    split; [done|]. split; [apply generated_text_truthy|].
    split; [by repeat constructor | done].
  - exists []. rewrite Hrun.
    split; [done|]. split; [apply generated_text_truthy | done].
Qed.

(** [litellm_generate] never returns the empty string.  It sends one
    request when the key is set and none otherwise.  A reply that is
    valid JSON but not an object is not raised either: it comes back as
    an "[LLM_ERROR] " string naming the missing [get] attribute. *)
Theorem litellm_generate_answer (env : Env) (prompt : pystr) (max_tokens : Z)
    (h : list event) :
  exists out evs,
    litellm_generate env prompt max_tokens h =
      (Val out, h ++ EvGenerate prompt max_tokens :: evs)
    /\ truthy out = true
    /\ Forall (fun ev => is_llm_post ev = true) evs
    /\ length evs = (if truthy (LITELLM_API_KEY env) then 1 else 0)%nat
    /\ (forall type_name,
          truthy (LITELLM_API_KEY env) = true ->
          llm_post env (h ++ [EvGenerate prompt max_tokens]) prompt max_tokens
            = Val (JsonOther type_name) ->
          out = lit "[LLM_ERROR] '" ++ type_name
                ++ lit "' object has no attribute 'get'").
Proof.
  destruct (litellm_generate_requests env prompt max_tokens h)
    as (out & evs & Hrun & Ht & Hall & Hlen & Hout).
  exists out, evs. split; [done|]. split; [done|]. split; [done|]. split; [done|].
  intros type_name Hkey Hreply. rewrite Hout, Hreply.
  unfold generated_text_of. rewrite Hkey. reflexivity.
Qed.

Lemma litellm_generate_answer_witness :
  truthy (LITELLM_API_KEY env_llm_list_reply) = true
  /\ llm_post env_llm_list_reply ([] ++ [EvGenerate (lit "Summarize.") 600])
       (lit "Summarize.") 600 = Val (JsonOther (lit "list"))
  /\ fst (litellm_generate env_llm_list_reply (lit "Summarize.") 600 [])
     = Val (lit "[LLM_ERROR] 'list' object has no attribute 'get'").
Proof.
  split; [reflexivity|]. split; [reflexivity|].
  destruct (litellm_generate_answer env_llm_list_reply (lit "Summarize.") 600 [])
    as (out & evs & Hrun & _ & _ & _ & Hother).
  rewrite Hrun. simpl. f_equal. exact (Hother (lit "list") eq_refl eq_refl).
Defined.

(** ** The translation loop *)

Lemma count_events_cons (p : event -> bool) (ev : event) (tr : list event) :
  count_events p (ev :: tr) = ((if p ev then 1 else 0) + count_events p tr)%nat.
Proof.
  unfold count_events. rewrite filter_cons.
  destruct (p ev); [by rewrite decide_True | by rewrite decide_False].
Qed.

Lemma count_events_all (p : event -> bool) (tr : list event) :
  Forall (fun ev => p ev = true) tr -> count_events p tr = length tr.
Proof.
  induction 1 as [|ev tr Hev _ IH]; [done|].
  rewrite count_events_cons, Hev, IH. done.
Qed.

Lemma dict_set_keys (k v : pystr) (d : dict) :
  map fst (dict_set k v d) = add_key (map fst d) k.
Proof.
  unfold add_key. induction d as [|[k0 v0] d IH].
  - cbn [dict_set map fst]. by destruct (decide (k ∈ [])) as [?%elem_of_nil|].
  - cbn [dict_set map fst].
    destruct (decide (k = k0)) as [->|Hne]; cbn [map fst].
    + destruct (decide (k0 ∈ k0 :: map fst d)) as [|Hnin]; [done|].
      exfalso. apply Hnin, elem_of_cons. by left.
    + rewrite IH. destruct (decide (k ∈ map fst d)) as [Hin|Hnin];
        destruct (decide (k ∈ k0 :: map fst d)) as [Hin'|Hnin']; try done.
      * exfalso. apply Hnin', elem_of_cons. by right.
      * apply elem_of_cons in Hin' as [?|?]; done.
Qed.

(** The loop of lines 285-287, event by event: for each language one
    invocation of the capability, at most the one request it sends, and
    one pause; the keys of the map grow in language order. *)
Lemma translate_all_trace (env : Env) (summary_en : pystr) (langs : list pystr) :
  forall (translations : dict) (h : list event),
  exists translations' evs,
    translate_all env summary_en langs translations h = (Val translations', h ++ evs)
    /\ Forall (fun ev => is_generation_stage ev = true) evs
    /\ count_events is_generate evs = length langs
    /\ count_events is_sleep evs = length langs
    /\ count_events is_llm_post evs =
         (if truthy (LITELLM_API_KEY env) then length langs else 0)%nat
    /\ map fst translations' = fold_left add_key langs (map fst translations)
    /\ (forall k, k ∉ langs -> dict_get k translations' = dict_get k translations).
Proof.
  induction langs as [|lang rest IH]; intros translations h.
  - exists translations, []. rewrite app_nil_r. simpl.
    repeat split; try done. by destruct (truthy _).
  - simpl translate_all. unfold translating_agent_translate.
    destruct (litellm_generate_requests env (translation_prompt summary_en lang) 800 h)
      as (out & evs1 & Hrun & _ & Hposts & Hlen1 & _).
    set (g := EvGenerate (translation_prompt summary_en lang) 800) in *.
    destruct (IH (dict_set lang out translations) ((h ++ g :: evs1) ++ [EvSleep]))
      as (translations' & evs2 & Hrest & Hall & Hgen & Hsleep & Hpost & Hkeys & Hkeep).
    exists translations', ((g :: evs1) ++ [EvSleep] ++ evs2).
    assert (Hposts1 : count_events is_llm_post evs1 = length evs1)
      by (by apply count_events_all).
    assert (Hgen1 : count_events is_generate evs1 = 0%nat)
      by (apply (count_events_none is_generate is_llm_post evs1 Hposts); by intros []).
    assert (Hsleep1 : count_events is_sleep evs1 = 0%nat)
      by (apply (count_events_none is_sleep is_llm_post evs1 Hposts); by intros []).
    split; [|split; [|split; [|split; [|split; [|split]]]]].
    + unfold bind at 1. rewrite Hrun. unfold bind at 1, emit at 1.
      rewrite Hrest. by rewrite <- !app_assoc.
    + apply Forall_app. split; [|apply Forall_app; split; [by repeat constructor | done]].
      constructor; [done|]. eapply Forall_impl; [exact Hposts|].
      intros ev Hev. unfold is_generation_stage. rewrite Hev. by destruct (is_generate ev).
    + rewrite !count_events_app, !count_events_cons, Hgen1, Hgen. simpl. lia.
    + rewrite !count_events_app, !count_events_cons, Hsleep1, Hsleep. simpl. lia.
    + rewrite !count_events_app, !count_events_cons, Hposts1, Hpost, Hlen1. simpl.
      destruct (truthy (LITELLM_API_KEY env)); simpl; lia.
    + rewrite Hkeys, dict_set_keys. done.
    + intros k Hk. apply not_elem_of_cons in Hk as [Hne Hk].
      rewrite (Hkeep k Hk), dict_get_set. by rewrite decide_False.
Qed.

(** ** Layout of the document *)

Lemma text_lines_from_app (bold : bool) (ops1 ops2 : list canvas_op) :
  text_lines_from bold (ops1 ++ ops2) =
    text_lines_from bold ops1
    ++ text_lines_from (fold_left font_after ops1 bold) ops2.
Proof.
  revert bold. induction ops1 as [|op ops1 IH]; intros bold; simpl; [done|].
  by rewrite IH, app_assoc.
Qed.

Lemma laid_out_nil : laid_out [] [].
Proof. split; [apply outlined_nil | constructor]. Qed.

Lemma laid_out_app (ops1 ops2 : list canvas_op) (marks1 marks2 : list mark) :
  laid_out ops1 marks1 -> laid_out ops2 marks2 ->
  laid_out (ops1 ++ ops2) (marks1 ++ marks2).
Proof.
  intros [Ho1 Hl1] [Ho2 Hl2]. split; [by apply outlined_app|].
  rewrite text_lines_from_app, (proj2 Ho1). by apply Forall_app.
Qed.

Lemma picture_boxes_app (ops1 ops2 : list canvas_op) :
  picture_boxes (ops1 ++ ops2) = picture_boxes ops1 ++ picture_boxes ops2.
Proof. unfold picture_boxes. apply omap_app. Qed.

Lemma split_lines_nonempty (text : pystr) : split_lines text <> [].
Proof.
  induction text as [|c rest IH]; simpl; [done|].
  destruct (N.eqb c newline); [done|]. by destruct (split_lines rest).
Qed.

(** The loop of lines 204-209 from a cursor at or below the top margin:
    one string per line, each inside the page and cut to 120 characters,
    and page breaks in between; after at least one line the cursor is
    between 76 and 738. *)
Lemma draw_lines_layout (lines : list pystr) (st : render_state) :
  y st <= page_h - margin ->
  exists ops,
    canvas (fold_left draw_line lines st) = canvas st ++ ops
    /\ Forall (fun op => is_text_op op = true) ops
    /\ Forall line_in_page (text_lines_from false ops)
    /\ length (text_lines_from false ops) = length lines
    /\ (lines <> [] ->
        margin + 36 <= y (fold_left draw_line lines st) <= page_h - margin - 14).
Proof.
  revert st. induction lines as [|line lines IH]; intros st Hy.
  - exists []. simpl. rewrite app_nil_r. repeat split; done.
  - set (y0 := if y st <? margin + 50 then page_h - margin else y st).
    assert (Hy0 : margin + 50 <= y0 <= page_h - margin).
    { unfold y0, margin, page_h in *. destruct (Z.ltb_spec (y st) (40 + 50)); lia. }
    assert (Hstep : y (draw_line st line) = y0 - 14
                    /\ exists pre, canvas (draw_line st line)
                         = canvas st ++ pre ++ [drawString margin y0 (take 120 line)]
                       /\ Forall (fun op => is_text_op op = true) pre
                       /\ text_lines_from false pre = []).
    { unfold draw_line, y0. destruct (y st <? margin + 50); simpl.
      - split; [done|]. exists [showPage]. rewrite <- app_assoc.
        split; [done|]. split; [by repeat constructor | done].
      - split; [done|]. exists []. split; [done|]. split; [constructor | done]. }
    destruct Hstep as (Hy1 & pre & Hcanvas1 & Hpre & Hprelines).
    destruct (IH (draw_line st line)) as (ops & Hcanvas & Hops & Hlines & Hcount & Hlast).
    { rewrite Hy1. lia. }
    exists ((pre ++ [drawString margin y0 (take 120 line)]) ++ ops).
    assert (Hfont : fold_left font_after (pre ++ [drawString margin y0 (take 120 line)]) false
                    = false).
    { rewrite fold_left_app. simpl. apply (text_ops_outlined pre Hpre). }
    simpl fold_left. split; [|split; [|split; [|split]]].
    + rewrite Hcanvas, Hcanvas1. by rewrite <- !app_assoc.
    + apply Forall_app. split; [|done]. apply Forall_app. split; [done|].
      by repeat constructor.
    + rewrite text_lines_from_app, Hfont. apply Forall_app. split; [|done].
      rewrite text_lines_from_app, Hprelines, (proj2 (text_ops_outlined pre Hpre)).
      simpl. constructor; [|constructor].
      split; [done|]. split; [done|]. simpl. rewrite length_take. lia.
    + rewrite text_lines_from_app, Hfont, length_app, Hcount.
      rewrite text_lines_from_app, Hprelines, (proj2 (text_ops_outlined pre Hpre)).
      done.
    + intros _. destruct lines as [|line' lines'].
      * cbn [fold_left]. rewrite Hy1. unfold margin, page_h in *. lia.
      * apply Hlast. done.
Qed.

Lemma draw_text_block_laid_out (title text : pystr) (st : render_state) :
  y st <= page_h - margin ->
  exists st' ops,
    draw_text_block title (Some text) st = Val st'
    /\ canvas st' = canvas st ++ ops
    /\ laid_out ops [BlockTitle title]
    /\ length (text_lines_from false ops) = length (split_lines text)
    /\ picture_boxes ops = []
    /\ margin + 26 <= y st' <= page_h - margin - 24.
Proof.
  intros Hy. unfold draw_text_block.
  set (st1 := draw (setFont Helvetica 11)
                (move_down 18
                   (draw (drawString margin (y (draw (setFont Helvetica_Bold 14) st)) title)
                      (draw (setFont Helvetica_Bold 14) st)))).
  destruct (draw_lines_layout (split_lines text) st1)
    as (ops & Hcanvas & Hops & Hlines & Hcount & Hlast).
  { unfold st1. simpl. lia. }
  specialize (Hlast (split_lines_nonempty text)).
  set (head := [setFont Helvetica_Bold 14; drawString margin (y st) title;
                setFont Helvetica 11]).
  eexists. exists (head ++ ops).
  split; [done|]. split; [|split; [|split; [|split]]].
  - change (canvas (move_down 10 ?x)) with (canvas x).
    rewrite Hcanvas. unfold st1. simpl. by rewrite <- !app_assoc.
  - split.
    + apply (outlined_app head ops [BlockTitle title] []);
        [by split | by apply text_ops_outlined].
    + rewrite text_lines_from_app. exact Hlines.
  - rewrite text_lines_from_app. exact Hcount.
  - rewrite picture_boxes_app. simpl.
    clear -Hops. induction Hops as [|op ops Hop _ IH]; [done|]. by destruct op.
  - change (y (move_down 10 ?x)) with (y x - 10). lia.
Qed.



Lemma image_urls_app (tr1 tr2 : list event) :
  image_urls (tr1 ++ tr2) = image_urls tr1 ++ image_urls tr2.
Proof. unfold image_urls. apply omap_app. Qed.

Lemma titles_app (marks1 marks2 : list mark) :
  titles (marks1 ++ marks2) = titles marks1 ++ titles marks2.
Proof. unfold titles. apply omap_app. Qed.

Lemma pictures_app (marks1 marks2 : list mark) :
  pictures (marks1 ++ marks2) = pictures marks1 ++ pictures marks2.
Proof. unfold pictures. apply omap_app. Qed.

(** Lines 217-226: at most one download, of [images[0]]; a picture only
    after a download; no text, no page break, and the cursor only moves
    down. *)
Lemma place_first_image_laid_out (env : Env) (images : list pystr)
    (st : render_state) (h : list event) :
  exists st' evs ops marks,
    place_first_image env images st h = (Val st', h ++ evs)
    /\ canvas st' = canvas st ++ ops
    /\ laid_out ops marks
    /\ titles marks = []
    /\ (length (pictures marks) <= length evs)%nat
    /\ Forall (fun ev => is_image_get ev = true) evs
    /\ image_urls evs `sublist_of` take 1 images
    /\ (length (picture_boxes ops) <= 1)%nat
    /\ y st' <= y st.
Proof.
  unfold place_first_image. destruct images as [|url images]; simpl.
  - exists st, [], [], []. rewrite !app_nil_r.
    split; [done|]. split; [done|]. split; [apply laid_out_nil|].
    split; [done|]. split; [done|]. split; [done|]. split; [done|].
    split; [simpl; lia | lia].
  - unfold try_except, bind, call, ret. simpl.
    destruct (image_get env h url) as [img|e].
    + exists (move_down 320 (draw (drawInlineImage img margin (y st - 310) 500 300) st)),
        [EvImageGet url (Val img)],
        [drawInlineImage img margin (y st - 310) 500 300], [Picture img].
      split; [done|]. split; [done|]. split; [by repeat split|].
      split; [done|]. split; [done|]. split; [by repeat constructor|].
      split; [done|]. split; [done | simpl; lia].
    + exists st, [EvImageGet url (Raise e)], [], []. rewrite app_nil_r.
      split; [done|]. split; [done|]. split; [apply laid_out_nil|].
      split; [done|]. split; [simpl; lia|]. split; [by repeat constructor|].
      split; [done|]. split; [simpl; lia | lia].
Qed.

(** Lines 235-247: at most one download, of [images[1]]; when the
    picture is drawn, a page break comes first if fewer than 360 points
    are left, so the picture lies wholly inside the page. *)
Lemma place_second_image_laid_out (env : Env) (images : list pystr)
    (st : render_state) (h : list event) :
  y st <= page_h - margin ->
  exists st' evs ops marks,
    place_second_image env images st h = (Val st', h ++ evs)
    /\ canvas st' = canvas st ++ ops
    /\ laid_out ops marks
    /\ titles marks = []
    /\ (length (pictures marks) <= length evs)%nat
    /\ Forall (fun ev => is_image_get ev = true) evs
    /\ image_urls evs `sublist_of` drop 1 (take 2 images)
    /\ Forall box_in_page (picture_boxes ops)
    /\ y st' <= page_h - margin.
Proof.
  intros Hy. unfold place_second_image.
  destruct (images !! 1%nat) as [url|] eqn:Hurl.
  - assert (Hurls : [url] `sublist_of` drop 1 (take 2 images)).
    { destruct images as [|u0 [|u1 images]]; try done.
      simpl in Hurl. injection Hurl as ->. done. }
    unfold try_except, bind, call, ret. simpl.
    destruct (image_get env h url) as [img|e].
    + destruct (Z.ltb_spec (y st) (margin + 320)) as [Hlow|Hhigh].
      * exists (move_down 320
                  (draw (drawInlineImage img margin (page_h - margin - 310) 500 300)
                     (new_page st))),
          [EvImageGet url (Val img)],
          [showPage; drawInlineImage img margin (page_h - margin - 310) 500 300],
          [Picture img].
        split; [done|]. split; [simpl; by rewrite <- app_assoc|].
        split; [by repeat split|]. split; [done|]. split; [done|].
        split; [by repeat constructor|]. split; [done|].
        split; [|simpl; unfold page_h, margin; lia].
        repeat constructor. exists (page_h - margin - 310).
        unfold page_h, margin. split; [done | lia].
      * exists (move_down 320 (draw (drawInlineImage img margin (y st - 310) 500 300) st)),
          [EvImageGet url (Val img)],
          [drawInlineImage img margin (y st - 310) 500 300], [Picture img].
        split; [done|]. split; [done|].
        split; [by repeat split|]. split; [done|]. split; [done|].
        split; [by repeat constructor|]. split; [done|].
        split; [|simpl; unfold page_h, margin in *; lia].
        repeat constructor. exists (y st - 310).
        unfold page_h, margin in *. split; [done | lia].
    + exists st, [EvImageGet url (Raise e)], [], []. rewrite app_nil_r.
      split; [done|]. split; [done|]. split; [apply laid_out_nil|].
      split; [done|]. split; [simpl; lia|]. split; [by repeat constructor|].
      split; [done|]. split; [constructor | done].
  - exists st, [], [], []. rewrite !app_nil_r.
    split; [done|]. split; [done|]. split; [apply laid_out_nil|].
    split; [done|]. split; [done|]. split; [done|].
    split; [apply sublist_nil_l|]. split; [constructor | done].
Qed.

(** The URLs the language loop may still download from index [i] on. *)
Lemma later_downloads_sublist (images : list pystr) (i : nat) :
  (if (S i <=? 1)%nat then drop 1 (take 2 images) else [])
    `sublist_of` (if (i <=? 1)%nat then drop 1 (take 2 images) else []).
Proof.
  destruct (S i <=? 1)%nat eqn:HS; [|apply sublist_nil_l].
  apply Nat.leb_le in HS. by replace (i <=? 1)%nat with true by (symmetry; apply Nat.leb_le; lia).
Qed.

Lemma render_languages_laid_out (env : Env) (images : list pystr)
    (items : list (pystr * pystr)) :
  forall (i : nat) (st : render_state) (h : list event),
  y st <= page_h - margin ->
  exists st' evs ops marks,
    render_languages env images i items st h = (Val st', h ++ evs)
    /\ canvas st' = canvas st ++ ops
    /\ laid_out ops marks
    /\ titles marks = map block_title (translated_languages items)
    /\ (length (pictures marks) <= length evs)%nat
    /\ Forall (fun ev => is_image_get ev = true) evs
    /\ image_urls evs `sublist_of`
         (if (i <=? 1)%nat then drop 1 (take 2 images) else [])
    /\ Forall box_in_page (picture_boxes ops)
    /\ y st' <= page_h - margin.
Proof.
  unfold translated_languages.
  induction items as [|[lang text] rest IH]; intros i st h Hy.
  - exists st, [], [], []. rewrite !app_nil_r.
    split; [done|]. split; [done|]. split; [apply laid_out_nil|].
    split; [done|]. split; [done|]. split; [done|].
    split; [apply sublist_nil_l|]. split; [constructor | done].
  - rewrite render_languages_cons. cbn [map fst]. rewrite filter_cons.
    destruct (is_english lang) eqn:Hlang.
    + rewrite decide_False by done.
      destruct (IH (S i) st h Hy)
        as (st' & evs & ops & marks & Hrun & Hcanvas & Hlaid & Htitles & Hpics
            & Hevs & Hurls & Hboxes & Hy').
      exists st', evs, ops, marks. repeat (split; [done|]).
      split; [|done]. etrans; [exact Hurls | apply later_downloads_sublist].
    + rewrite decide_True by done.
      destruct (draw_text_block_laid_out (block_title lang) text st Hy)
        as (st1 & ops1 & Hblock & Hcanvas1 & Hlaid1 & _ & Hboxes1 & Hy1).
      assert (Hy1' : y st1 <= page_h - margin) by lia.
      assert (Hsecond : exists st2 evs2 ops2 marks2,
        (if (i =? 1)%nat && (1 <? length images)%nat
         then place_second_image env images st1 else ret st1) h = (Val st2, h ++ evs2)
        /\ canvas st2 = canvas st1 ++ ops2
        /\ laid_out ops2 marks2
        /\ titles marks2 = []
        /\ (length (pictures marks2) <= length evs2)%nat
        /\ Forall (fun ev => is_image_get ev = true) evs2
        /\ image_urls evs2 `sublist_of`
             (if (i =? 1)%nat then drop 1 (take 2 images) else [])
        /\ Forall box_in_page (picture_boxes ops2)
        /\ y st2 <= page_h - margin).
      { destruct (i =? 1)%nat eqn:Hi; simpl.
        - destruct (1 <? length images)%nat.
          + by apply place_second_image_laid_out.
          + exists st1, [], [], []. rewrite !app_nil_r.
            split; [done|]. split; [done|]. split; [apply laid_out_nil|].
            split; [done|]. split; [done|]. split; [done|].
            split; [apply sublist_nil_l|]. split; [constructor | done].
        - exists st1, [], [], []. rewrite !app_nil_r.
          split; [done|]. split; [done|]. split; [apply laid_out_nil|].
          split; [done|]. split; [done|]. split; [done|].
          split; [done|]. split; [constructor | done]. }
      destruct Hsecond
        as (st2 & evs2 & ops2 & marks2 & Hrun2 & Hcanvas2 & Hlaid2 & Htitles2 & Hpics2
            & Hevs2 & Hurls2 & Hboxes2 & Hy2).
      destruct (IH (S i) st2 (h ++ evs2) Hy2)
        as (st3 & evs3 & ops3 & marks3 & Hrun3 & Hcanvas3 & Hlaid3 & Htitles3 & Hpics3
            & Hevs3 & Hurls3 & Hboxes3 & Hy3).
      exists st3, (evs2 ++ evs3), (ops1 ++ ops2 ++ ops3),
        ([BlockTitle (block_title lang)] ++ marks2 ++ marks3).
      split; [|split; [|split; [|split; [|split; [|split; [|split; [|split]]]]]]].
      * unfold bind at 1. unfold lift. rewrite Hblock.
        unfold bind at 1. rewrite Hrun2, Hrun3. by rewrite <- app_assoc.
      * rewrite Hcanvas3, Hcanvas2, Hcanvas1. by rewrite <- !app_assoc.
      * apply laid_out_app; [done|]. by apply laid_out_app.
      * rewrite !titles_app, Htitles2, Htitles3. done.
      * rewrite !pictures_app, !length_app. simpl. lia.
      * by apply Forall_app.
      * rewrite image_urls_app. destruct (i =? 1)%nat eqn:Hi.
        -- apply Nat.eqb_eq in Hi as ->. simpl in Hurls3.
           apply sublist_nil_r in Hurls3. rewrite Hurls3, app_nil_r. exact Hurls2.
        -- apply sublist_nil_r in Hurls2. rewrite Hurls2. simpl.
           etrans; [exact Hurls3 | apply later_downloads_sublist].
      * rewrite !picture_boxes_app, Hboxes1. simpl. by apply Forall_app.
      * done.
Qed.

Lemma first_two_images (images : list pystr) :
  take 1 images ++ drop 1 (take 2 images) = take 2 images.
Proof. by destruct images as [|u0 [|u1 images]]. Qed.

(** Everything [create_pdf] draws before [c.save()], for any behaviour
    of the network. *)
Lemma render_laid_out (env : Env) (summary_texts_by_lang : dict)
    (images : list pystr) (h : list event) (text : pystr) :
  py_or (dict_get (lit "english") summary_texts_by_lang)
        (dict_get (lit "en") summary_texts_by_lang) = Some text ->
  exists st evs first later,
    render env summary_texts_by_lang images h = (Val st, h ++ evs)
    /\ Forall (fun ev => is_image_get ev = true) evs
    /\ image_urls evs `sublist_of` take 2 images
    /\ titles (outline (canvas st)) =
         lit "English Summary" :: map block_title (translated_languages summary_texts_by_lang)
    /\ Forall line_in_page (text_lines (canvas st))
    /\ (length (pictures (outline (canvas st))) <= length evs)%nat
    /\ picture_boxes (canvas st) = first ++ later
    /\ (length first <= 1)%nat
    /\ Forall box_in_page later.
Proof.
  intros Heng. unfold render. rewrite Heng.
  destruct (draw_text_block_laid_out (lit "English Summary") text
              (mkState (page_h - margin) []))
    as (st0 & ops0 & Hblock & Hcanvas0 & Hlaid0 & _ & Hboxes0 & Hy0); [done|].
  destruct (place_first_image_laid_out env images st0 h)
    as (st1 & evs1 & ops1 & marks1 & Hrun1 & Hcanvas1 & Hlaid1 & Htitles1 & Hpics1
        & Hevs1 & Hurls1 & Hboxes1 & Hy1).
  destruct (render_languages_laid_out env images summary_texts_by_lang 0 st1 (h ++ evs1))
    as (st2 & evs2 & ops2 & marks2 & Hrun2 & Hcanvas2 & Hlaid2 & Htitles2 & Hpics2
        & Hevs2 & Hurls2 & Hboxes2 & Hy2); [lia|].
  assert (Hdoc : canvas st2 = ops0 ++ ops1 ++ ops2).
  { rewrite Hcanvas2, Hcanvas1, Hcanvas0. simpl. by rewrite <- app_assoc. }
  assert (Hlaid : laid_out (ops0 ++ ops1 ++ ops2)
                    ([BlockTitle (lit "English Summary")] ++ marks1 ++ marks2)).
  { apply laid_out_app; [done|]. by apply laid_out_app. }
  exists st2, (evs1 ++ evs2), (picture_boxes ops1), (picture_boxes ops2).
  split; [|split; [|split; [|split; [|split; [|split; [|split; [|split]]]]]]].
  - unfold bind at 1. unfold lift. rewrite Hblock.
    unfold bind at 1. rewrite Hrun1, Hrun2. by rewrite <- app_assoc.
  - by apply Forall_app.
  - rewrite image_urls_app, <- first_two_images. by apply sublist_app.
  - unfold outline. rewrite Hdoc, (proj1 (proj1 Hlaid)).
    rewrite !titles_app, Htitles1, Htitles2. done.
  - unfold text_lines. rewrite Hdoc. exact (proj2 Hlaid).
  - unfold outline. rewrite Hdoc, (proj1 (proj1 Hlaid)).
    rewrite !pictures_app, !length_app. simpl. lia.
  - rewrite Hdoc, !picture_boxes_app, Hboxes0. done.
  - done.
  - done.
Qed.

(** The segments of the canvas, with where their pictures lie. *)
Lemma render_segments_laid_out (env : Env) (summary_texts_by_lang : dict)
    (images : list pystr) (h : list event) (text : pystr) :
  py_or (dict_get (lit "english") summary_texts_by_lang)
        (dict_get (lit "en") summary_texts_by_lang) = Some text ->
  exists st english pic1 entries evs1 evs2,
    render env summary_texts_by_lang images h = (Val st, h ++ evs1 ++ evs2)
    /\ canvas st = english ++ pic1 ++ entries
    /\ text_block (lit "English Summary") text english
    /\ slot_picture false (images !! 0%nat) evs1 pic1
    /\ picture_boxes english = []
    /\ Forall box_in_page (picture_boxes entries).
Proof.
  intros Heng. unfold render. rewrite Heng.
  destruct (draw_text_block_block (lit "English Summary") text
              (mkState (page_h - margin) []))
    as (st0 & english & Hblock & Hcanvas0 & Henglish).
  destruct (draw_text_block_laid_out (lit "English Summary") text
              (mkState (page_h - margin) []))
    as (st0' & ops0 & Hblock' & Hcanvas0' & _ & _ & Hboxes0 & Hy0); [done|].
  rewrite Hblock in Hblock'. injection Hblock' as <-.
  rewrite Hcanvas0 in Hcanvas0'. apply app_inv_head in Hcanvas0'. subst ops0.
  destruct (place_first_image_slot env images st0 h)
    as (st1 & evs1 & pic1 & Hrun1 & Hcanvas1 & Hpic1).
  destruct (place_first_image_laid_out env images st0 h)
    as (st1' & evs1' & ops1 & marks1 & Hrun1' & _ & _ & _ & _ & _ & _ & _ & Hy1).
  rewrite Hrun1 in Hrun1'. injection Hrun1' as <- _.
  destruct (render_languages_laid_out env images summary_texts_by_lang 0 st1 (h ++ evs1))
    as (st2 & evs2 & entries & marks2 & Hrun2 & Hcanvas2 & _ & _ & _ & _ & _ & Hboxes2 & _);
    [lia|].
  exists st2, english, pic1, entries, evs1, evs2.
  split; [|split; [|done]].
  - unfold bind at 1. unfold lift. rewrite Hblock.
    unfold bind at 1. rewrite Hrun1, Hrun2. by rewrite <- app_assoc.
  - rewrite Hcanvas2, Hcanvas1, Hcanvas0. simpl canvas. simpl app at 1.
    by rewrite <- app_assoc.
Qed.



(** [create_pdf] downloads at most the first two images of the list, in
    list order and each at most once, and does nothing else on the
    network; it calls [c.save()] once, after the downloads, unless the
    English lookup fails, in which case it neither downloads nor
    saves. *)
Theorem create_pdf_downloads (env : Env) (summary_texts_by_lang : dict)
    (images : list pystr) (out_path : pystr) (h : list event) :
  exists evs,
    snd (create_pdf env summary_texts_by_lang images out_path h) = h ++ evs
    /\ image_urls evs `sublist_of` take 2 images
    /\ Forall (fun ev => is_image_get ev || is_save ev = true) evs
    /\ match py_or (dict_get (lit "english") summary_texts_by_lang)
                   (dict_get (lit "en") summary_texts_by_lang) with
       | Some _ => exists downloads ev,
                     evs = downloads ++ [ev] /\ is_save ev = true
                     /\ count_events is_save downloads = 0%nat
       | None => evs = []
       end.
Proof.
  destruct (py_or (dict_get (lit "english") summary_texts_by_lang)
                  (dict_get (lit "en") summary_texts_by_lang)) as [text|] eqn:Heng.
  - destruct (render_laid_out env summary_texts_by_lang images h text Heng)
      as (st & evs & first & later & Hrender & Hevs & Hurls & _).
    rewrite (create_pdf_runs env summary_texts_by_lang images out_path h st evs Hrender).
    eexists. split; [done|]. split; [|split].
    + rewrite image_urls_app. simpl. by rewrite app_nil_r.
    + apply Forall_app. split; [|by repeat constructor].
      eapply Forall_impl; [exact Hevs|]. by intros ev ->.
    + eexists _, _. split; [done|]. split; [done|].
      apply (count_events_none is_save is_image_get evs Hevs). by intros [].
  - exists []. unfold create_pdf, render. rewrite Heng, app_nil_r.
    split; [done|]. split; [apply sublist_nil_l | done].
Qed.

(** ** A whole run, event by event *)

(** The publisher, for any credentials: what it adds to the trace. *)
Lemma send_to_telegram_trace (env : Env) (pdf_path caption : pystr)
    (h : list event) :
  exists o evs,
    send_to_telegram env pdf_path caption h = (o, h ++ evs)
    /\ Forall (publishes pdf_path caption) evs
    /\ (count_events is_open evs <= 1)%nat
    /\ (count_events is_delivery evs <= 1)%nat
    /\ (credentials_present env = false -> evs = [])
    /\ match o with
       | Val _ => forall ev, ev ∈ evs -> escaped ev = false
       | Raise _ => exists ev, last evs = Some ev /\ escaped ev = true
       end.
Proof.
  destruct (credentials_present env) eqn:Hcred.
  - rewrite (send_to_telegram_configured env pdf_path caption h Hcred).
    destruct (open_rb env h pdf_path) as [u|e].
    + simpl. destruct (telegram_post env _ pdf_path caption) as [status_code|e].
      * eexists _, [_; _]. rewrite <- app_assoc.
        split; [done|]. split; [by repeat constructor|].
        split; [vm_compute; lia|].
        split; [vm_compute; lia|]. split; [done|].
        intros ev [->|[->|?%elem_of_nil]%elem_of_cons]%elem_of_cons; done.
      * eexists _, [_; _]. rewrite <- app_assoc.
        split; [done|]. split; [by repeat constructor|].
        split; [vm_compute; lia|].
        split; [vm_compute; lia|]. split; [done|].
        by eexists.
    + eexists _, [_]. split; [done|]. split; [by repeat constructor|].
      split; [vm_compute; lia|].
        split; [vm_compute; lia|]. split; [done|].
      by eexists.
  - rewrite (send_to_telegram_unconfigured env pdf_path caption h Hcred).
    exists (Val false), []. rewrite app_nil_r.
    split; [done|]. split; [done|]. split; [vm_compute; lia|].
    split; [vm_compute; lia|]. split; [done|]. by intros ev ?%elem_of_nil.
Qed.

(** Lines 279-297, event by event: four invocations of the generation
    capability with three pauses, the date string of line 290, the
    downloads of the renderer, one [c.save()], then the publisher. *)
Lemma flow_stages_trace (env : Env) (results : list NewsItem) (h : list event) :
  results <> [] ->
  exists gen_evs date img_evs doc saved pub_evs o,
    flow_stages env results h =
      (o, h ++ gen_evs ++ [EvNow date] ++ img_evs
            ++ [EvSave (out_pdf_of date) doc saved] ++ pub_evs)
    /\ Forall (fun ev => is_generation_stage ev = true) gen_evs
    /\ count_events is_generate gen_evs = 4%nat
    /\ count_events is_sleep gen_evs = 3%nat
    /\ count_events is_llm_post gen_evs =
         (if truthy (LITELLM_API_KEY env) then 4 else 0)%nat
    /\ Forall (fun ev => is_image_get ev = true) img_evs
    /\ image_urls img_evs `sublist_of` select_images_from_results results 2
    /\ titles (outline doc) = run_titles
    /\ Forall line_in_page (text_lines doc)
    /\ Forall (publishes (out_pdf_of date) (caption_of date)) pub_evs
    /\ (count_events is_open pub_evs <= 1)%nat
    /\ (count_events is_delivery pub_evs <= 1)%nat
    /\ (credentials_present env = false -> pub_evs = [])
    /\ match saved with
       | Raise e => o = Raise e /\ pub_evs = []
       | Val _ =>
           match o with
           | Val b => b = true /\ forall ev, ev ∈ pub_evs -> escaped ev = false
           | Raise _ => exists ev, last pub_evs = Some ev /\ escaped ev = true
           end
       end.
Proof.
  intros Hne. destruct results as [|r rest]; [done|]. clear Hne.
  set (results := r :: rest).
  destruct (litellm_generate_requests env (summary_prompt results) 600 h)
    as (summary_en & evs1 & Hsum & Htruthy & Hposts & Hlen1 & _).
  set (g0 := EvGenerate (summary_prompt results) 600) in *.
  destruct (translate_all_trace env summary_en target_languages
              (dict_set (lit "english") summary_en []) (h ++ g0 :: evs1))
    as (translations & evs2 & Htrans & Hall2 & Hgen2 & Hsleep2 & Hpost2 & Hkeys & Hkeep).
  set (h2 := (h ++ g0 :: evs1) ++ evs2) in *.
  set (date := now_date env h2).
  set (h3 := h2 ++ [EvNow date]).
  set (images := select_images_from_results results 2).
  assert (Hlookup : py_or (dict_get (lit "english") translations)
                          (dict_get (lit "en") translations) = Some summary_en).
  { rewrite Hkeep.
    - rewrite dict_get_set, decide_True by done. unfold py_or. simpl. by rewrite Htruthy.
    - unfold target_languages. rewrite !not_elem_of_cons.
      repeat split; try (by vm_compute); apply not_elem_of_nil. }
  destruct (render_laid_out env translations images h3 summary_en Hlookup)
    as (st & evs3 & first & later & Hrender & Hevs3 & Hurls & Htitles & Hlines & _).
  pose proof (create_pdf_runs env translations images (out_pdf_of date) h3 st evs3 Hrender)
    as Hpdf. simpl in Hpdf.
  set (saved := canvas_save env (h3 ++ evs3) (out_pdf_of date) (canvas st)) in *.
  set (h4 := h3 ++ evs3 ++ [EvSave (out_pdf_of date) (canvas st) saved]) in *.
  destruct (send_to_telegram_trace env (out_pdf_of date) (caption_of date) h4)
    as (o_pub & pub_evs & Hsend & Hpub & Hopen & Hdeliver & Hnocred & Hend).
  assert (Hposts1 : count_events is_llm_post evs1 = length evs1)
    by (by apply count_events_all).
  assert (Hgen1 : count_events is_generate evs1 = 0%nat)
    by (apply (count_events_none is_generate is_llm_post evs1 Hposts); by intros []).
  assert (Hsleep1 : count_events is_sleep evs1 = 0%nat)
    by (apply (count_events_none is_sleep is_llm_post evs1 Hposts); by intros []).
  assert (Hprefix : flow_stages env results h =
    match saved with
    | Val _ =>
        (let* sent := send_to_telegram env (out_pdf_of date) (caption_of date) in
         ret true) h4
    | Raise e => (Raise e, h4)
    end).
  { unfold flow_stages. unfold bind at 1. unfold summary_agent_generate, results at 1.
    fold results. rewrite Hsum.
    unfold bind at 1. fold images. rewrite Htrans. fold h2.
    unfold bind at 1. unfold today_string at 1. fold date h3.
    unfold bind at 1. fold (out_pdf_of date). rewrite Hpdf. by destruct saved. }
  assert (Hh4 : forall tail, h4 ++ tail =
    h ++ ((g0 :: evs1) ++ evs2) ++ [EvNow date] ++ evs3
      ++ [EvSave (out_pdf_of date) (canvas st) saved] ++ tail).
  { intros tail. unfold h4, h3, h2. by rewrite <- !app_assoc. }
  exists ((g0 :: evs1) ++ evs2), date, evs3, (canvas st), saved,
    (match saved with Val _ => pub_evs | Raise _ => [] end),
    (match saved with
     | Val _ => match o_pub with Val _ => Val true | Raise e => Raise e end
     | Raise e => Raise e
     end).
  split; [|split; [|split; [|split; [|split; [|split; [|split; [|split;
    [|split; [|split; [|split; [|split; [|split]]]]]]]]]]]].
  - rewrite Hprefix. destruct saved as [u|e].
    + unfold bind. rewrite Hsend, Hh4. by destruct o_pub.
    + by rewrite <- (app_nil_r h4), Hh4.
  - apply Forall_app. split; [|done]. constructor; [done|].
    eapply Forall_impl; [exact Hposts|].
    intros ev Hev. unfold is_generation_stage. rewrite Hev. by destruct (is_generate ev).
  - rewrite count_events_app, count_events_cons, Hgen1, Hgen2. done.
  - rewrite count_events_app, count_events_cons, Hsleep1, Hsleep2. done.
  - rewrite count_events_app, count_events_cons, Hposts1, Hpost2, Hlen1.
    by destruct (truthy (LITELLM_API_KEY env)).
  - done.
  - rewrite take_ge in Hurls; [done|]. unfold images.
    rewrite (proj2 (select_images_positive_quota results 2 ltac:(lia))). lia.
  - rewrite Htitles. unfold translated_languages. rewrite Hkeys. reflexivity.
  - done.
  - by destruct saved.
  - destruct saved; [done | vm_compute; lia].
  - destruct saved; [done | vm_compute; lia].
  - intros Hcred. by destruct saved; [apply Hnocred|].
  - destruct saved as [u|e]; [|done]. by destruct o_pub.
Qed.

Lemma crewai_flow_run_stages (env : Env) (h : list event)
    (results : list NewsItem) (evs0 tr : list event) (o : outcome bool) :
  search_agent_us_financial_news env h = (Val results, h ++ evs0) ->
  results <> [] ->
  flow_stages env results (h ++ evs0) = (o, tr) ->
  crewai_flow_run env h =
    (Val (match o with Val b => b | Raise _ => false end), tr).
Proof.
  intros Hsearch Hne Hstages.
  unfold crewai_flow_run, try_except, flow_body. unfold bind at 1. rewrite Hsearch.
  destruct results as [|r rest]; [done|]. rewrite Hstages. by destruct o.
Qed.

Lemma count_events_none_of (p : event -> bool) (P : event -> Prop)
    (tr : list event) :
  Forall P tr -> (forall ev, P ev -> p ev = false) -> count_events p tr = 0%nat.
Proof.
  intros Hall Hp. induction Hall as [|ev tr Hev _ IH]; [done|].
  by rewrite count_events_cons, (Hp ev Hev), IH.
Qed.

Lemma image_urls_length (evs : list event) :
  Forall (fun ev => is_image_get ev = true) evs ->
  length (image_urls evs) = length evs.
Proof.
  induction 1 as [|ev evs Hev _ IH]; [done|].
  destruct ev; try done. simpl. by rewrite IH.
Qed.

Ltac count_segment p q evs H :=
  rewrite (count_events_none p q evs H) by (by intros []).

Ltac count_publisher p evs H :=
  rewrite (count_events_none_of p _ evs H) by (by intros []).



(** A run uses the date string of line 290 throughout: the file it
    saves is [daily_summary_<date>.pdf], the file it opens and uploads
    is that same file, and the caption of the upload is
    "Daily Market Summary - <date>". *)
Theorem run_publishes_the_saved_file (env : Env) (h : list event) :
  fst (search_agent_us_financial_news env h) <> Val [] ->
  exists b evs date,
    crewai_flow_run env h = (Val b, h ++ evs)
    /\ EvNow date ∈ evs
    /\ Forall (dated date) evs.
Proof.
  intros Hresults.
  destruct (search_agent_shape env h) as (results & evs0 & Hsearch & Hall0 & _ & _).
  rewrite Hsearch in Hresults. simpl in Hresults.
  assert (Hne : results <> []) by congruence.
  destruct (flow_stages_trace env results (h ++ evs0) Hne)
    as (gen_evs & date & img_evs & doc & saved & pub_evs & o & Hstages & Hgen & _
        & _ & _ & Himg & _ & _ & _ & Hpub & _).
  pose proof (crewai_flow_run_stages env h results evs0 _ o Hsearch Hne Hstages) as Hrun.
  eexists _, (evs0 ++ gen_evs ++ [EvNow date] ++ img_evs
              ++ [EvSave (out_pdf_of date) doc saved] ++ pub_evs), date.
  split; [rewrite Hrun; by rewrite <- app_assoc|]. split.
  - rewrite !elem_of_app. right. right. left. apply elem_of_cons. by left.
  - repeat (apply Forall_app; split).
    + eapply Forall_impl; [exact Hall0|]. by intros [].
    + eapply Forall_impl; [exact Hgen|]. by intros [].
    + by repeat constructor.
    + eapply Forall_impl; [exact Himg|]. by intros [].
    + by repeat constructor.
    + eapply Forall_impl; [exact Hpub|]. by intros [].
Qed.

Lemma run_publishes_the_saved_file_witness :
  fst (search_agent_us_financial_news (env_delivering (Val 200)) []) <> Val []
  /\ exists b evs date,
       crewai_flow_run (env_delivering (Val 200)) [] = (Val b, [] ++ evs)
       /\ EvNow date ∈ evs
       /\ Forall (dated date) evs.
Proof.
  assert (Hne : fst (search_agent_us_financial_news (env_delivering (Val 200)) [])
                <> Val []) by (vm_compute; discriminate).
  split; [exact Hne|].
  exact (run_publishes_the_saved_file (env_delivering (Val 200)) [] Hne).
Defined.



(** With no Serper key, no generation key and no delivery credentials,
    a run works on the mock item and talks to none of the three
    services: its trace holds only invocations of the (mock) generation
    capability, pauses, the clock, image downloads and the save.  It
    returns [True] unless [c.save()] raises. *)
Theorem run_without_credentials (env : Env) (h : list event) :
  truthy (SERPER_API_KEY env) = false ->
  truthy (LITELLM_API_KEY env) = false ->
  credentials_present env = false ->
  exists b evs path doc saved,
    crewai_flow_run env h = (Val b, h ++ evs)
    /\ fst (search_agent_us_financial_news env h) = Val [mock_result]
    /\ Forall (fun ev => is_offline_event ev = true) evs
    /\ last evs = Some (EvSave path doc saved)
    /\ (b = true <-> exists u, saved = Val u).
Proof.
  intros Hserper Hllm Hcred.
  destruct (search_agent_shape env h) as (results & evs0 & Hsearch & _ & _ & Hkey).
  rewrite Hserper in Hkey. destruct Hkey as [-> ->].
  assert (Hne : [mock_result] <> []) by done.
  destruct (flow_stages_trace env [mock_result] (h ++ []) Hne)
    as (gen_evs & date & img_evs & doc & saved & pub_evs & o & Hstages & Hgen & _
        & _ & Hposts & Himg & _ & _ & _ & _ & _ & _ & Hnopub & Hend).
  rewrite (Hnopub Hcred) in *. rewrite Hllm in Hposts.
  pose proof (crewai_flow_run_stages env h [mock_result] [] _ o Hsearch Hne Hstages)
    as Hrun.
  eexists _, (gen_evs ++ [EvNow date] ++ img_evs
              ++ [EvSave (out_pdf_of date) doc saved]), (out_pdf_of date), doc, saved.
  split; [rewrite Hrun; by rewrite <- !app_assoc, ?app_nil_r|].
  split; [by rewrite Hsearch|]. split; [|split].
  - repeat (apply Forall_app; split); [| by repeat constructor | | by repeat constructor].
    + assert (Hnone : count_events is_llm_post gen_evs = 0%nat) by done.
      clear -Hgen Hnone. induction Hgen as [|ev evs Hev _ IH]; [done|].
      rewrite count_events_cons in Hnone.
      constructor; [|apply IH; lia].
      destruct ev; done.
    + eapply Forall_impl; [exact Himg|]. by intros [].
  - rewrite !app_assoc. apply last_snoc.
  - destruct saved as [u|e].
    + destruct o as [b|e]; [|by destruct Hend as (ev & [=] & _)].
      destruct Hend as [-> _]. split; [by eexists | done].
    + destruct Hend as [-> _]. split; [done | by intros [u [=]]].
Qed.

Lemma run_without_credentials_witness :
  truthy (SERPER_API_KEY env_unconfigured) = false
  /\ truthy (LITELLM_API_KEY env_unconfigured) = false
  /\ credentials_present env_unconfigured = false
  /\ exists b evs path doc saved,
       crewai_flow_run env_unconfigured [] = (Val b, [] ++ evs)
       /\ fst (search_agent_us_financial_news env_unconfigured []) = Val [mock_result]
       /\ Forall (fun ev => is_offline_event ev = true) evs
       /\ last evs = Some (EvSave path doc saved)
       /\ (b = true <-> exists u, saved = Val u).
Proof.
  split; [reflexivity|]. split; [reflexivity|]. split; [reflexivity|].
  exact (run_without_credentials env_unconfigured [] eq_refl eq_refl eq_refl).
Defined.

(** ** Items without a key *)

Lemma same_key_once (k : option pystr) (results : list NewsItem) :
  NoDup (dedupe_key <$> results) ->
  (length (filter (fun r => dedupe_key r = k) results) <= 1)%nat.
Proof.
  induction results as [|r rest IH]; intros Hnodup; [simpl; lia|].
  rewrite fmap_cons in Hnodup. apply NoDup_cons in Hnodup as [Hr Hrest].
  rewrite filter_cons. destruct (decide (dedupe_key r = k)) as [Hk|Hk]; [|by apply IH].
  assert (Hnone : filter (fun r0 => dedupe_key r0 = k) rest = []).
  { destruct (filter (fun r0 => dedupe_key r0 = k) rest) as [|x xs] eqn:Hf; [done|].
    assert (Hx : x ∈ filter (fun r0 => dedupe_key r0 = k) rest)
      by (rewrite Hf; apply elem_of_cons; by left).
    apply list_elem_of_filter in Hx as [Hxk Hx]. exfalso. apply Hr.
    rewrite Hk, <- Hxk. by apply list_elem_of_fmap_2. }
  rewrite Hnone. simpl. lia.
Qed.

(** After deduplication at most one item has any given key.  In
    particular the items that have neither a link nor a title (their
    key is [None]) are all taken for copies of each other: at most one
    of them is kept. *)
Theorem dedupe_one_item_per_key (results : list NewsItem) (k : option pystr) :
  (length (filter (fun r => dedupe_key r = k) (dedupe results)) <= 1)%nat
  /\ (length (filter (fun r => link r = None /\ title r = None) (dedupe results))
      <= 1)%nat.
Proof.
  assert (Hnodup : NoDup (dedupe_key <$> dedupe results))
    by (rewrite dedupe_first_seen; apply first_seen_keys_NoDup).
  split; [by apply same_key_once|].
  etrans; [|apply (same_key_once None (dedupe results) Hnodup)].
  apply sublist_length. clear Hnodup.
  induction (dedupe results) as [|r rest IH]; [done|].
  rewrite !filter_cons.
  destruct (decide (link r = None /\ title r = None)) as [[Hl Ht]|Hno].
  - rewrite decide_True; [by apply sublist_skip|].
    unfold dedupe_key, py_or. by rewrite Hl, Ht.
  - destruct (decide (dedupe_key r = None)); [by apply sublist_cons | done].
Qed.

(** ** The translator *)

Lemma language_code_unknown (target_lang : pystr) :
  lower target_lang <> lit "arabic" -> lower target_lang <> lit "hindi" ->
  lower target_lang <> lit "hebrew" ->
  language_code target_lang = target_lang.
Proof.
  intros Har Hhi Hhe. unfold language_code, LANGUAGE_CODES.
  by rewrite !lookup_insert_ne, lookup_empty by done.
Qed.

(** [translating_agent_translate] never raises and invokes the
    generation capability exactly once, with a budget of 800 tokens.
    The prompt names the target language as given and its code, carries
    the text unchanged between "ORIGINAL:" and "TRANSLATED:", and the
    code is found by the lower-cased name: "ar", "hi" or "he" for
    Arabic, Hindi or Hebrew in any capitalisation, and the name itself
    for any other language. *)
Theorem translating_agent_translate_call (env : Env) (text target_lang : pystr)
    (h : list event) :
  exists out evs,
    translating_agent_translate env text target_lang h =
      (Val out,
       h ++ EvGenerate
              (lit "Translate the following summary into " ++ target_lang
               ++ lit " (language code: " ++ language_code target_lang
               ++ lit "). " ++ nl
               ++ lit "Preserve the original formatting (bullets, short paragraphs). Do not add or remove content."
               ++ nl ++ nl ++ lit "ORIGINAL:" ++ nl ++ text ++ nl ++ nl
               ++ lit "TRANSLATED:" ++ nl) 800 :: evs)
    /\ truthy out = true
    /\ count_events is_generate evs = 0%nat
    /\ (lower target_lang = lit "arabic" -> language_code target_lang = lit "ar")
    /\ (lower target_lang = lit "hindi" -> language_code target_lang = lit "hi")
    /\ (lower target_lang = lit "hebrew" -> language_code target_lang = lit "he")
    /\ (lower target_lang <> lit "arabic" -> lower target_lang <> lit "hindi" ->
        lower target_lang <> lit "hebrew" -> language_code target_lang = target_lang).
Proof.
  unfold translating_agent_translate.
  destruct (litellm_generate_requests env (translation_prompt text target_lang) 800 h)
    as (out & evs & Hrun & Ht & Hposts & _).
  exists out, evs. split; [exact Hrun|]. split; [done|]. split.
  { apply (count_events_none is_generate is_llm_post evs Hposts). by intros []. }
  unfold language_code.
  split; [by intros ->|]. split; [by intros ->|]. split; [by intros ->|].
  apply language_code_unknown.
Qed.

Lemma translating_agent_translate_call_witness :
  lower (lit "Arabic") = lit "arabic"
  /\ language_code (lit "Arabic") = lit "ar"
  /\ lower (lit "french") <> lit "arabic"
  /\ language_code (lit "french") = lit "french".
Proof.
  destruct (translating_agent_translate_call env_unconfigured (lit "Stocks rose.")
              (lit "Arabic") []) as (_ & _ & _ & _ & _ & Har & _).
  destruct (translating_agent_translate_call env_unconfigured (lit "Stocks rose.")
              (lit "french") []) as (_ & _ & _ & _ & _ & _ & _ & _ & Hother).
  split; [reflexivity|]. split; [exact (Har eq_refl)|].
  split; [vm_compute; discriminate|].
  apply Hother; vm_compute; discriminate.
Defined.
